(** * GoFileServer: path confinement and request routing

  A shallow embedding of [main.go]: the four request handlers
  ([handleAPIFiles], [handleAPIUpload], [handleAPIMkdir],
  [handleDownload]) together with the parts of Go's standard library they
  call ([path/filepath], [os], [net/http]) on a Unix host, where the path
  separator is the slash and nothing else. *)

From Stdlib Require Import ZArith Ascii String List Bool Lia Sorted.
From stdpp Require Import base option list gmap strings.

Local Open Scope string_scope.

(** ** Strings *)

Module Strings.

(** [strings.HasPrefix(s, prefix)]. *)
Definition HasPrefix (s prefix : string) : bool := String.prefix prefix s.

(** [strings.HasSuffix(s, suffix)]. *)
Definition HasSuffix (s suffix : string) : bool :=
  let n := String.length s in
  let m := String.length suffix in
  if Nat.leb m n then String.eqb (String.substring (n - m) m s) suffix
  else false.

(** [strings.TrimPrefix(s, prefix)]. *)
Definition TrimPrefix (s prefix : string) : string :=
  if HasPrefix s prefix
  then String.substring (String.length prefix)
                        (String.length s - String.length prefix) s
  else s.

(** [strings.Split(s, "/")]: the pieces between slashes; never empty. *)
Fixpoint Split (s : string) : list string :=
  match s with
  | EmptyString => [""]
  | String c s' =>
      if Ascii.eqb c "/" then "" :: Split s'
      else match Split s' with
           | e :: es => String c e :: es
           | [] => [String c ""]
           end
  end.

(** [strings.Join(elems, "/")]. *)
Fixpoint Join (elems : list string) : string :=
  match elems with
  | [] => ""
  | [e] => e
  | e :: es => e +:+ "/" +:+ Join es
  end.

(** Does the slash occur in [s]? *)
Fixpoint has_slash (s : string) : bool :=
  match s with
  | EmptyString => false
  | String c s' => Ascii.eqb c "/" || has_slash s'
  end.

End Strings.

(** ** path/filepath (Unix) *)

Module Filepath.
Import Strings.

Definition rooted (path : string) : bool :=
  match path with
  | String c _ => Ascii.eqb c "/"
  | EmptyString => false
  end.

(** The loop of [Clean], one path element at a time.  [out] holds the
  elements written to the buffer so far, the last one first; [dotdot]
  counts the leading elements of the buffer that a [..] may not remove
  (the [../..] prefix of a relative path; for a rooted path the mark
  sits behind the leading slash and the count stays zero). *)
Fixpoint clean_loop (isRooted : bool) (elems out : list string)
         (dotdot : nat) : list string :=
  match elems with
  | [] => out
  | e :: rest =>
      if String.eqb e "" then
        (* empty path element *)
        clean_loop isRooted rest out dotdot
      else if String.eqb e "." then
        (* . element *)
        clean_loop isRooted rest out dotdot
      else if String.eqb e ".." then
        (* .. element: remove to last separator *)
        if Nat.ltb dotdot (length out) then
          (* can backtrack *)
          clean_loop isRooted rest (tail out) dotdot
        else if isRooted then
          clean_loop isRooted rest out dotdot
        else
          (* cannot backtrack, but not rooted, so append .. element *)
          clean_loop isRooted rest (".." :: out) (S (length out))
      else
        (* real path element *)
        clean_loop isRooted rest (e :: out) dotdot
  end.

(** The elements of the cleaned path, first one first. *)
Definition clean_elems (path : string) : list string :=
  rev (clean_loop (rooted path) (Split path) [] 0).

(** [filepath.Clean(path)]. *)
Definition Clean (path : string) : string :=
  if String.eqb path "" then "."
  else if rooted path then "/" +:+ Join (clean_elems path)
  else match clean_elems path with
       | [] => "."   (* turn empty string into "." *)
       | es => Join es
       end.

(** [filepath.Join(elem...)]: leading empty elements are skipped, the rest
  is joined with slashes and cleaned. *)
Fixpoint Join (elem : list string) : string :=
  match elem with
  | [] => ""
  | e :: rest =>
      if String.eqb e "" then Join rest
      else Clean (Strings.Join (e :: rest))
  end.

(** The elements [Rel] walks over: the pieces of [path] that start before
  its end, so the empty path has none and a rooted path starts with an
  empty one. *)
Definition rel_elems (path : string) : list string :=
  match rev (Split path) with
  | "" :: es => rev es
  | _ => Split path
  end.

(** Position both paths at their first differing elements.  The flag
  tells whether the loop stopped at a difference (the [break]) rather
  than at the end of one of the paths. *)
Fixpoint rel_loop (base targ : list string)
  : bool * list string * list string :=
  match base, targ with
  | b :: base', t :: targ' =>
      if String.eqb t b then rel_loop base' targ'
      else (true, base, targ)
  | _, _ => (false, base, targ)
  end.

(** [filepath.Rel(basepath, targpath)]; [None] is the error result. *)
Definition Rel (basepath targpath : string) : option string :=
  let base := Clean basepath in
  let targ := Clean targpath in
  if String.eqb targ base then Some "."
  else
    let base := if String.eqb base "." then "" else base in
    if negb (Bool.eqb (rooted base) (rooted targ)) then None
    else
      let '(differ, bs, ts) := rel_loop (rel_elems base) (rel_elems targ) in
      if differ && String.eqb (hd "" bs) ".." then None
      else match bs with
           | [] => Some (Strings.Join ts)
           | _ =>
               (* Base elements left. Must go up before going down. *)
               Some (Strings.Join (map (fun _ => "..") bs ++ ts))
           end.

End Filepath.

(** ** os: a working directory tree

  The file system is a finite map from paths to nodes.  A path is the list
  of names that leads from the working directory of the server to the
  node, so [[]] is the working directory itself and ["uploads"; "a.txt"]
  is [./uploads/a.txt].  Symbolic links, permissions and I/O faults are
  not part of the model: a call fails only for a missing node, for a file
  where a directory is needed, or for a node that is in the way. *)

Module Os.

Inductive errno := ENOENT | ENOTDIR | EEXIST | EISDIR.

Inductive node :=
| Dir (modTime : Z)
| File (modTime : Z) (content : string).

Definition isDir (n : node) : bool :=
  match n with Dir _ => true | File _ _ => false end.

Definition modTime (n : node) : Z :=
  match n with Dir t => t | File t _ => t end.

(** What [FileInfo.Size] reports: the length of a file in bytes; for a
  directory the number is system-dependent (one block is used here). *)
Definition size (n : node) : Z :=
  match n with
  | Dir _ => 4096
  | File _ content => Z.of_nat (String.length content)
  end.

(** [os.IsNotExist(err)]. *)
Definition IsNotExist (e : errno) : bool :=
  match e with ENOENT => true | _ => false end.

(** The names the kernel walks for a path name: empty elements and [.]
  are skipped.  Every name handed to the file system by the server has
  been through [filepath.Clean], so [..] can only stand in front, where
  it is kept as the name of the directory above. *)
Definition key (name : string) : list string :=
  List.filter (fun e => negb (String.eqb e "") && negb (String.eqb e "."))
              (Strings.Split name).

(** Walk from [dir] down the names [rest]. *)
Fixpoint walk (fs : gmap (list string) node) (dir rest : list string)
  : errno + node :=
  match fs !! dir with
  | None => inl ENOENT
  | Some n =>
      match rest with
      | [] => inr n
      | e :: rest' =>
          if isDir n then walk fs (dir ++ [e]) rest' else inl ENOTDIR
      end
  end.

Definition stat (fs : gmap (list string) node) (k : list string)
  : errno + node := walk fs [] k.

(** [os.Stat(name)] (and [os.Lstat], there being no links). *)
Definition Stat (fs : gmap (list string) node) (name : string)
  : errno + node := stat fs (key name).

Record DirEntry := {
  Name : string;
  IsDir : bool;
  Size : Z;       (* Info().Size() *)
  ModTime : Z     (* Info().ModTime(), in seconds *)
}.

Definition child_of (dir k : list string) : option string :=
  match rev k with
  | name :: rparent =>
      if decide (rev rparent = dir) then Some name else None
  | [] => None
  end.

Definition entries (fs : gmap (list string) node) (dir : list string)
  : list DirEntry :=
  omap (fun kn : list string * node =>
          match child_of dir kn.1 with
          | Some name =>
              Some {| Name := name; IsDir := isDir kn.2;
                      Size := size kn.2; ModTime := modTime kn.2 |}
          | None => None
          end)
       (map_to_list fs).

Fixpoint insert_by_name (e : DirEntry) (l : list DirEntry) : list DirEntry :=
  match l with
  | [] => [e]
  | x :: l' =>
      if String.leb (Name e) (Name x) then e :: l
      else x :: insert_by_name e l'
  end.

Definition sort_by_name (l : list DirEntry) : list DirEntry :=
  foldr insert_by_name [] l.

(** [os.ReadDir(name)]: the entries of the directory, sorted by name. *)
Definition ReadDir (fs : gmap (list string) node) (name : string)
  : errno + list DirEntry :=
  match Stat fs name with
  | inl e => inl e
  | inr (File _ _) => inl ENOTDIR
  | inr (Dir _) => inr (sort_by_name (entries fs (key name)))
  end.

(** [os.Mkdir]: the parent must be a directory and the name free.  The
  new entry changes the parent, whose modification time moves. *)
Definition mkdir (fs : gmap (list string) node) (now : Z) (k : list string)
  : errno + gmap (list string) node :=
  match stat fs (removelast k) with
  | inl e => inl e
  | inr (File _ _) => inl ENOTDIR
  | inr (Dir _) =>
      match fs !! k with
      | Some _ => inl EEXIST
      | None => inr (<[k := Dir now]> (<[removelast k := Dir now]> fs))
      end
  end.

(** [os.MkdirAll] on the names of the path, last name first.  It answers
  with the file system it leaves behind and the error, if any: the
  ancestors made before a failure stay. *)
Fixpoint mkdirAll (fs : gmap (list string) node) (now : Z)
         (rk : list string) : gmap (list string) node * option errno :=
  (* Fast path: if we can tell whether path is a directory or file, stop
     with success or error. *)
  match stat fs (rev rk) with
  | inr n => if isDir n then (fs, None) else (fs, Some ENOTDIR)
  | inl _ =>
      (* Parent now exists; invoke Mkdir and use its result. *)
      let finish (fs1 : gmap (list string) node) :=
        match mkdir fs1 now (rev rk) with
        | inr fs2 => (fs2, None)
        | inl e =>
            (* double-check that the directory doesn't exist *)
            match stat fs1 (rev rk) with
            | inr (Dir _) => (fs1, None)
            | _ => (fs1, Some e)
            end
        end in
      (* Slow path: make sure parent exists and then call Mkdir. *)
      match rk with
      | _ :: rparent =>
          match rparent with
          | [] => finish fs
          | _ :: _ =>
              match mkdirAll fs now rparent with
              | (fs1, Some e) => (fs1, Some e)
              | (fs1, None) => finish fs1
              end
          end
      | [] => finish fs
      end
  end.

Definition MkdirAll (fs : gmap (list string) node) (now : Z) (path : string)
  : gmap (list string) node * option errno :=
  mkdirAll fs now (rev (key path)).

(** [os.Create(name)]: create or truncate. *)
Definition Create (fs : gmap (list string) node) (now : Z) (name : string)
  : errno + gmap (list string) node :=
  let k := key name in
  match stat fs (removelast k) with
  | inl e => inl e
  | inr (File _ _) => inl ENOTDIR
  | inr (Dir _) =>
      match fs !! k with
      | Some (Dir _) => inl EISDIR
      | Some (File _ _) => inr (<[k := File now ""]> fs)
      | None => inr (<[k := File now ""]> (<[removelast k := Dir now]> fs))
      end
  end.

(** Writing [content] through the handle [os.Create] returned for [name]. *)
Definition Write (fs : gmap (list string) node) (now : Z) (name content : string)
  : gmap (list string) node :=
  <[key name := File now content]> fs.

End Os.

(** ** The records of main.go *)

Module Api.

(** File represents a file or directory in the system. *)
Record File := {
  Name : string;
  Path : string;
  IsDir : bool;
  Size : Z;
  UpdatedAt : Z   (* ModTime, printed as 2006-01-02 15:04:05 *)
}.

(** ResponseMessage represents API response messages. *)
Record ResponseMessage := {
  Success : bool;
  Message : string
}.

End Api.

(** ** net/http: requests, responses, multipart forms *)

Module Http.

Definition MethodGet : string := "GET".
Definition MethodPost : string := "POST".

Definition StatusOK : Z := 200.
Definition StatusMovedPermanently : Z := 301.
Definition StatusFound : Z := 302.
Definition StatusBadRequest : Z := 400.
Definition StatusNotFound : Z := 404.
Definition StatusMethodNotAllowed : Z := 405.
Definition StatusInternalServerError : Z := 500.

(** One part of a multipart body: the name of the form field, the file
  name of its content disposition ([""] for a plain value) as
  [Part.FileName] reports it, and its bytes. *)
Record Part := {
  FormName : string;
  FileName : string;
  Data : string
}.

(** What a request carries as its body. *)
Inductive body :=
| NoBody
| JSONObject (path name : string)
    (* a JSON object, with its members "path" and "name" ([""] if absent) *)
| Multipart (parts : list Part)
| Malformed.

Record Request := {
  Method : string;
  URLPath : string;                  (* r.URL.Path *)
  Query : list (string * string);    (* r.URL.Query() *)
  Body : body
}.

(** [multipart.FileHeader]: a file part is held in memory or, when it did
  not fit, in a temporary file. *)
Record FileHeader := {
  Filename : string;
  Size : Z;
  content : string;
  tmpfile : bool
}.

(** [multipart.Form]. *)
Record Form := {
  Value : list (string * string);
  File : list (string * FileHeader)
}.

Definition bytes (s : string) : Z := Z.of_nat (String.length s).

(** [multipart.Reader.ReadForm(maxMemory)]: values are kept in memory, up
  to [maxValueBytes] in total; a file part is kept in memory while the
  budget [maxMemory] lasts and is spooled to a temporary file when it
  is larger than what is left of it.  No file part is refused for its
  size. *)
Fixpoint readForm (parts : list Part) (maxMemory maxValueBytes : Z)
         (form : Form) : option Form :=
  match parts with
  | [] => Some form
  | p :: rest =>
      if String.eqb (FormName p) "" then
        readForm rest maxMemory maxValueBytes form
      else if String.eqb (FileName p) "" then
        (* value, store as string in memory *)
        let maxValueBytes := (maxValueBytes - bytes (Data p))%Z in
        if (maxValueBytes <? 0)%Z then None (* ErrMessageTooLarge *)
        else readForm rest maxMemory maxValueBytes
               {| Value := Value form ++ [(FormName p, Data p)];
                  File := File form |}
      else
        (* file, store in memory or on disk *)
        let n := bytes (Data p) in
        let onDisk := (maxMemory <? n)%Z in
        let fh := {| Filename := FileName p; Size := n;
                     content := Data p; tmpfile := onDisk |} in
        readForm rest (if onDisk then maxMemory else maxMemory - n)%Z
                 maxValueBytes
                 {| Value := Value form;
                    File := File form ++ [(FormName p, fh)] |}
  end.

(** [r.ParseMultipartForm(maxMemory)]; [None] is the error result. *)
Definition ParseMultipartForm (r : Request) (maxMemory : Z) : option Form :=
  match Body r with
  | Multipart parts =>
      (* Reserve an additional 10 MB for non-file parts. *)
      readForm parts maxMemory (maxMemory + 10 * 2 ^ 20)%Z
               {| Value := []; File := [] |}
  | _ => None
  end.

Definition values_for {A : Type} (key : string) (l : list (string * A))
  : list A :=
  map snd (List.filter (fun kv => String.eqb (fst kv) key) l).

(** [r.URL.Query().Get(key)]. *)
Definition QueryGet (r : Request) (key : string) : string :=
  hd "" (values_for key (Query r)).

(** [r.FormValue(key)] once the form is parsed: the query parameters come
  before the values of the multipart body. *)
Definition FormValue (r : Request) (form : Form) (key : string) : string :=
  hd "" (values_for key (Query r) ++ values_for key (Value form)).

(** [r.FormFile(key)]: the first file of that field, if any. *)
Definition FormFile (form : Form) (key : string) : option FileHeader :=
  head (values_for key (File form)).

(** [json.NewDecoder(r.Body).Decode(&reqBody)]. *)
Definition DecodeJSON (r : Request) : option (string * string) :=
  match Body r with
  | JSONObject path name => Some (path, name)
  | _ => None
  end.

(** What is written to the [ResponseWriter]. *)
Inductive payload :=
| JSONError (error : string)
    (* {"success": false, "error": ...} *)
| JSONFiles (path : string) (files : list Api.File)
    (* {"success": true, "path": ..., "files": [...]} *)
| JSONMessage (m : Api.ResponseMessage)
| Text (message : string)
    (* http.Error *)
| Location (url : string)
    (* a redirect *)
| FileBytes (content : string)
    (* http.ServeContent *)
| DirList (names : list string)
    (* the directory listing of http.ServeFile *)
| Page.
    (* the index template *)

Record Response := {
  Status : Z;
  Payload : payload
}.

(** [http.Error(w, message, code)]. *)
Definition Error (message : string) (code : Z) : Response :=
  {| Status := code; Payload := Text message |}.

(** [http.Redirect(w, r, url, code)] for a [url] that starts with a slash
  followed by a query. *)
Definition Redirect (url : string) (code : Z) : Response :=
  {| Status := code; Payload := Location url |}.

Definition isSlashRune (c : ascii) : bool :=
  Ascii.eqb c "/" || Ascii.eqb c "\".

(** [strings.FieldsFunc(v, isSlashRune)]. *)
Fixpoint fields (v acc : string) : list string :=
  match v with
  | EmptyString => if String.eqb acc "" then [] else [acc]
  | String c v' =>
      if isSlashRune c
      then (if String.eqb acc "" then fields v' "" else acc :: fields v' "")
      else fields v' (acc +:+ String c "")
  end.

Definition containsDotDot (v : string) : bool :=
  existsb (fun ent => String.eqb ent "..") (fields v "").

(** [path.Base]. *)
Definition Base (p : string) : string :=
  if String.eqb p "" then "."
  else match rev (List.filter (fun e => negb (String.eqb e ""))
                              (Strings.Split p)) with
       | e :: _ => e
       | [] => "/"
       end.

Definition listing (es : list Os.DirEntry) : list string :=
  map (fun e => if Os.IsDir e then Os.Name e +:+ "/" else Os.Name e) es.

(** [http.ServeFile(w, r, name)] for a request without range or
  conditional headers. *)
Definition ServeFile (fs : gmap (list string) Os.node) (r : Request)
           (name : string) : Response :=
  if containsDotDot (URLPath r) then
    Error "invalid URL path" StatusBadRequest
  else if Strings.HasSuffix (URLPath r) "/index.html" then
    (* redirect .../index.html to .../ *)
    Redirect "./" StatusMovedPermanently
  else
    match Os.Stat fs name with
    | inl _ => Error "404 page not found" StatusNotFound
    | inr (Os.File _ bytes) => {| Status := StatusOK; Payload := FileBytes bytes |}
    | inr (Os.Dir _) =>
        (* redirect if the directory name doesn't end in a slash *)
        if negb (Strings.HasSuffix (URLPath r) "/") then
          Redirect (Base (URLPath r) +:+ "/") StatusMovedPermanently
        else
          (* use contents of index.html for directory, if present *)
          let index := (Os.key name ++ ["index.html"])%list in
          match Os.stat fs index with
          | inr (Os.File _ bytes) =>
              {| Status := StatusOK; Payload := FileBytes bytes |}
          | inr (Os.Dir _) =>
              {| Status := StatusOK;
                 Payload := DirList (listing (Os.sort_by_name (Os.entries fs index))) |}
          | inl _ =>
              {| Status := StatusOK;
                 Payload := DirList (listing (Os.sort_by_name
                                                (Os.entries fs (Os.key name)))) |}
          end
    end.

End Http.

(** ** main.go *)

Module Server.
Import Http.

(** Configuration constants. *)
Definition uploadPath : string := "./uploads".  (* Base directory for all uploads *)
Definition port : Z := 8080.                    (* Server port *)

(** The calls a handler makes on the file system, in the order made. *)
Inductive op := ReadDirOp | MkdirAllOp | StatOp | CreateOp | CopyOp | ServeFileOp.

Record call := { Op : op; Target : string }.

(** The state a request runs in: the file system, the clock, and the log
  of the file system calls made so far. *)
Record world := {
  fs : gmap (list string) Os.node;
  now : Z;
  calls : list call
}.

Definition M (A : Type) : Type := world -> A * world.

Definition ret {A : Type} (a : A) : M A := fun w => (a, w).

Definition bind {A B : Type} (m : M A) (k : A -> M B) : M B :=
  fun w => let (a, w') := m w in k a w'.

Notation "x <~ m ;; k" := (bind m (fun x => k))
  (at level 100, m at next level, right associativity).

Definition record (o : op) (name : string)
           (fs' : gmap (list string) Os.node) (w : world) : world :=
  {| fs := fs'; now := now w;
     calls := (calls w ++ [{| Op := o; Target := name |}])%list |}.

Definition ReadDir (name : string) : M (Os.errno + list Os.DirEntry) :=
  fun w => (Os.ReadDir (fs w) name, record ReadDirOp name (fs w) w).

Definition Stat (name : string) : M (Os.errno + Os.node) :=
  fun w => (Os.Stat (fs w) name, record StatOp name (fs w) w).

Definition MkdirAll (path : string) : M (option Os.errno) :=
  fun w => let (fs', err) := Os.MkdirAll (fs w) (now w) path in
           (err, record MkdirAllOp path fs' w).

Definition Create (name : string) : M (option Os.errno) :=
  fun w => match Os.Create (fs w) (now w) name with
           | inl e => (Some e, record CreateOp name (fs w) w)
           | inr fs' => (None, record CreateOp name fs' w)
           end.

(** [io.Copy(dst, file)] for the [dst] that [Create name] opened. *)
Definition Copy (name content : string) : M (option Os.errno) :=
  fun w => (None, record CopyOp name (Os.Write (fs w) (now w) name content) w).

Definition ServeFile (r : Request) (name : string) : M Response :=
  fun w => (Http.ServeFile (fs w) r name, record ServeFileOp name (fs w) w).

(** sendJSONError sends a JSON formatted error response. *)
Definition sendJSONError (message : string) (statusCode : Z) : Response :=
  {| Status := statusCode; Payload := JSONError message |}.

Definition ok (p : payload) : Response :=
  {| Status := StatusOK; Payload := p |}.

(** handleIndex serves the main web interface. *)
Definition handleIndex (r : Request) : M Response :=
  if negb (String.eqb (Method r) MethodGet) then
    ret (Error "Method not allowed" StatusMethodNotAllowed)
  else
    ret (ok Page).

(** handleAPIFiles lists files in the given directory. *)
Definition handleAPIFiles (r : Request) : M Response :=
  let dirPath := QueryGet r "path" in
  let dirPath := if String.eqb dirPath "" then "/" else dirPath in
  (* Make sure we're not accessing outside the upload directory *)
  let fullPath := Filepath.Join [uploadPath; Filepath.Clean dirPath] in
  match Filepath.Rel uploadPath fullPath with
  | None => ret (sendJSONError "Invalid path" StatusBadRequest)
  | Some relPath =>
      if Strings.HasPrefix relPath ".." then
        ret (sendJSONError "Invalid path" StatusBadRequest)
      else
        (* Read directory contents *)
        files <~ ReadDir fullPath ;;
        match files with
        | inl err =>
            (* If directory doesn't exist yet, just return an empty list *)
            if Os.IsNotExist err then
              ret (ok (JSONFiles dirPath []))
            else
              ret (sendJSONError "Failed to read directory"
                                 StatusInternalServerError)
        | inr files =>
            let fileList :=
              map (fun f =>
                     {| Api.Name := Os.Name f;
                        Api.Path := Filepath.Join [dirPath; Os.Name f];
                        Api.IsDir := Os.IsDir f;
                        Api.Size := Os.Size f;
                        Api.UpdatedAt := Os.ModTime f |}) files in
            ret (ok (JSONFiles dirPath fileList))
        end
  end.

(** handleAPIUpload handles file uploads. *)
Definition handleAPIUpload (r : Request) : M Response :=
  if negb (String.eqb (Method r) MethodPost) then
    ret (sendJSONError "Method not allowed" StatusMethodNotAllowed)
  else
    (* Parse the multipart form, 32 << 20 specifies a maximum upload of 32 MB *)
    match ParseMultipartForm r (Z.shiftl 32 20) with
    | None => ret (sendJSONError "Failed to parse form" StatusBadRequest)
    | Some form =>
        (* Get the path where to save the file *)
        let dirPath := FormValue r form "path" in
        let dirPath := if String.eqb dirPath "" then "/" else dirPath in
        (* Make sure the target directory exists *)
        let fullDirPath := Filepath.Join [uploadPath; Filepath.Clean dirPath] in
        err <~ MkdirAll fullDirPath ;;
        match err with
        | Some _ =>
            ret (sendJSONError "Failed to create directory"
                               StatusInternalServerError)
        | None =>
            (* Get the uploaded file *)
            match FormFile form "file" with
            | None =>
                ret (sendJSONError "Failed to get file from form"
                                   StatusBadRequest)
            | Some handler =>
                (* Create the file on the server *)
                let fullPath := Filepath.Join [fullDirPath; Filename handler] in
                err <~ Create fullPath ;;
                match err with
                | Some _ =>
                    ret (sendJSONError "Failed to create file on server"
                                       StatusInternalServerError)
                | None =>
                    (* Copy the file to the destination *)
                    err <~ Copy fullPath (content handler) ;;
                    match err with
                    | Some _ =>
                        ret (sendJSONError "Failed to save file"
                                           StatusInternalServerError)
                    | None =>
                        ret (ok (JSONMessage
                                   {| Api.Success := true;
                                      Api.Message :=
                                        "File uploaded successfully to " +:+
                                        Filepath.Join [dirPath; Filename handler] |}))
                    end
                end
            end
        end
    end.

(** handleAPIMkdir creates a new directory. *)
Definition handleAPIMkdir (r : Request) : M Response :=
  if negb (String.eqb (Method r) MethodPost) then
    ret (sendJSONError "Method not allowed" StatusMethodNotAllowed)
  else
    match DecodeJSON r with
    | None => ret (sendJSONError "Invalid request" StatusBadRequest)
    | Some (reqPath, reqName) =>
        if String.eqb reqName "" then
          ret (sendJSONError "Directory name is required" StatusBadRequest)
        else
          (* Make sure we're not accessing outside the upload directory *)
          let fullPath :=
            Filepath.Join [uploadPath; Filepath.Clean reqPath; reqName] in
          match Filepath.Rel uploadPath fullPath with
          | None => ret (sendJSONError "Invalid path" StatusBadRequest)
          | Some relPath =>
              if Strings.HasPrefix relPath ".." then
                ret (sendJSONError "Invalid path" StatusBadRequest)
              else
                err <~ MkdirAll fullPath ;;
                match err with
                | Some _ =>
                    ret (sendJSONError "Failed to create directory"
                                       StatusInternalServerError)
                | None =>
                    ret (ok (JSONMessage
                               {| Api.Success := true;
                                  Api.Message :=
                                    "Directory '" +:+ reqName +:+
                                    "' created successfully" |}))
                end
          end
    end.

(** handleDownload handles file/directory downloads. *)
Definition handleDownload (r : Request) : M Response :=
  if negb (String.eqb (Method r) MethodGet) then
    ret (Error "Method not allowed" StatusMethodNotAllowed)
  else
    (* Extract the path from the URL *)
    let filePath := Strings.TrimPrefix (URLPath r) "/download" in
    let filePath := if String.eqb filePath "" then "/" else filePath in
    (* Make sure we're not accessing outside the upload directory *)
    let fullPath := Filepath.Join [uploadPath; Filepath.Clean filePath] in
    match Filepath.Rel uploadPath fullPath with
    | None => ret (Error "Invalid path" StatusBadRequest)
    | Some relPath =>
        if Strings.HasPrefix relPath ".." then
          ret (Error "Invalid path" StatusBadRequest)
        else
          (* Check if the path exists *)
          fileInfo <~ Stat fullPath ;;
          match fileInfo with
          | inl _ => ret (Error "File not found" StatusNotFound)
          | inr fileInfo =>
              (* If it's a directory and not requesting the root, redirect
                 to the web interface *)
              if Os.isDir fileInfo && negb (String.eqb filePath "/") then
                ret (Redirect ("/?path=" +:+ filePath) StatusFound)
              else
                (* Serve the file *)
                ServeFile r fullPath
          end
    end.

(** main, before it listens: create upload directory if it doesn't exist. *)
Definition setup : M (option Os.errno) := MkdirAll uploadPath.

(** The routes main sets up. *)
Inductive endpoint := Index | APIFiles | APIUpload | APIMkdir | Download.

Definition pattern (e : endpoint) : string :=
  match e with
  | Index => "/"
  | APIFiles => "/api/files"
  | APIUpload => "/api/upload"
  | APIMkdir => "/api/mkdir"
  | Download => "/download/"
  end.

Definition handler (e : endpoint) : Request -> M Response :=
  match e with
  | Index => handleIndex
  | APIFiles => handleAPIFiles
  | APIUpload => handleAPIUpload
  | APIMkdir => handleAPIMkdir
  | Download => handleDownload
  end.

End Server.

(** ** The vocabulary of the specification *)

Module Confinement.
Import Http Server.

(** StorageRoot, as the file system knows it. *)
Definition StorageRoot : list string := Os.key uploadPath.

(** The full path a handler forms from a logical path. *)
Definition resolve (logicalPath : string) : string :=
  Filepath.Join [uploadPath; Filepath.Clean logicalPath].

(** The full path the mkdir handler forms. *)
Definition resolve_in (parent name : string) : string :=
  Filepath.Join [uploadPath; Filepath.Clean parent; name].

(** The confinement guard of the handlers:
  [err != nil || strings.HasPrefix(relPath, "..")] rejects. *)
Definition guard (fullPath : string) : bool :=
  match Filepath.Rel uploadPath fullPath with
  | None => false
  | Some relPath => negb (Strings.HasPrefix relPath "..")
  end.

(** Does a relative path begin with a parent-directory segment? *)
Definition parent_first (relPath : string) : bool :=
  String.eqb (hd "" (Strings.Split relPath)) "..".

Fixpoint starts_with (pre l : list string) : bool :=
  match pre, l with
  | [], _ => true
  | p :: pre', x :: l' => String.eqb p x && starts_with pre' l'
  | _ :: _, [] => false
  end.

(** The node a path name addresses is StorageRoot or lies below it. *)
Definition within_root (name : string) : bool :=
  starts_with StorageRoot (Os.key name).

(** A path element proper: not empty, not [.], not [..], and free of
  slashes. *)
Definition real (e : string) : bool :=
  negb (String.eqb e "") && negb (String.eqb e ".") &&
  negb (String.eqb e "..") && negb (Strings.has_slash e).

(** The elements of a cleaned relative path: [..] elements in front, proper
  elements behind them. *)
Definition clean_form (es : list string) : Prop :=
  exists n reals, es = (repeat ".." n ++ reals)%list /\ Forall (fun e => real e = true) reals.

(** The cleaned relative path with the elements [es]. *)
Definition render (es : list string) : string :=
  match es with
  | [] => "."
  | _ => Strings.Join es
  end.

(** The relative path from the upload directory to the cleaned relative
  path with the elements [es]. *)
Definition rel_of (es : list string) : string :=
  match es with
  | [] => "../."
  | e :: rest =>
      if String.eqb "uploads" e then
        match rest with
        | [] => "."
        | _ => Strings.Join rest
        end
      else Strings.Join (".." :: e :: rest)
  end.

(** A path name that has passed the confinement guard: the relative path
  from the upload directory exists and does not begin with a
  parent-directory segment, and the node addressed is StorageRoot or lies
  below it. *)
Definition guarded (name : string) : Prop :=
  guard name = true /\
  (exists relPath, Filepath.Rel uploadPath name = Some relPath /\
                   parent_first relPath = false) /\
  within_root name = true.

(** The logical path of a listing request. *)
Definition listPath (r : Request) : string :=
  if String.eqb (QueryGet r "path") "" then "/" else QueryGet r "path".

(** The logical path of a download request. *)
Definition downloadPath (r : Request) : string :=
  if String.eqb (Strings.TrimPrefix (URLPath r) "/download") "" then "/"
  else Strings.TrimPrefix (URLPath r) "/download".

(** The logical directory of an upload request, once its form is parsed. *)
Definition uploadDir (r : Request) (form : Form) : string :=
  if String.eqb (FormValue r form "path") "" then "/"
  else FormValue r form "path".

(** The verb the interface gives each endpoint. *)
Definition verb (e : endpoint) : string :=
  match e with
  | Index => MethodGet
  | APIFiles => MethodGet
  | APIUpload => MethodPost
  | APIMkdir => MethodPost
  | Download => MethodGet
  end.

(** MaxUploadSize: 32 MiB. *)
Definition MaxUploadSize : Z := 32 * 2 ^ 20.

End Confinement.

(** ** Sample worlds and requests *)

Module Samples.
Import Http Server.

Definition tree : gmap (list string) Os.node :=
  list_to_map
    [ ([], Os.Dir 0);
      (["uploads"], Os.Dir 0);
      (["uploads"; "docs"], Os.Dir 1);
      (["uploads"; "docs"; "a.txt"], Os.File 2 "0123456789");
      (["uploads"; "index.html"], Os.File 3 "<html></html>") ].

Definition w0 : world := {| fs := tree; now := 100; calls := [] |}.

Definition get (url : string) (query : list (string * string)) : Request :=
  {| Method := MethodGet; URLPath := url; Query := query; Body := NoBody |}.

Definition post (url : string) (b : body) : Request :=
  {| Method := MethodPost; URLPath := url; Query := []; Body := b |}.

Definition value (name data : string) : Part :=
  {| FormName := name; FileName := ""; Data := data |}.

Definition file (name filename data : string) : Part :=
  {| FormName := name; FileName := filename; Data := data |}.

(** An upload whose [path] field climbs out of the upload directory. *)
Definition climbing_upload : Request :=
  post "/api/upload" (Multipart [value "path" ".."; file "file" "evil.txt" "x"]).

(** An upload of one file with the bytes [data]. *)
Definition upload_of (data : string) : Request :=
  post "/api/upload" (Multipart [file "file" "big.bin" data]).

(** A string of [n] bytes. *)
Fixpoint fill (n : nat) : string :=
  match n with
  | O => ""
  | S n' => String "x" (fill n')
  end.

End Samples.

(** ** The script of the index page *)

Module Script.

(** [navigateToParent]: the path the page loads when the user goes up
  from [currentPath]; [None] when it stays where it is.
  [split('/').filter(Boolean)] keeps the non-empty pieces, [pop] drops the
  last one. *)
Definition navigateToParent (currentPath : string) : option string :=
  if String.eqb currentPath "/" then None
  else
    let parts := List.filter (fun s => negb (String.eqb s ""))
                             (Strings.Split currentPath) in
    let parts := removelast parts in
    Some (match parts with
          | [] => "/"
          | _ => "/" +:+ Strings.Join parts
          end).


End Script.

(** ** What a handler leaves of the file system *)

Module Effects.

(** [fs'] keeps what [fs] has: no node is gone, a directory is still a
  directory, and a file is exactly as it was. *)
Definition keeps (fs fs' : gmap (list string) Os.node) : Prop :=
  forall k n, fs !! k = Some n ->
    exists n', fs' !! k = Some n' /\ Os.isDir n' = Os.isDir n /\
               (Os.isDir n = false -> n' = n).

(** A file stands at [k] or above it. *)
Definition file_in_the_way (fs : gmap (list string) Os.node)
           (k : list string) : Prop :=
  exists p t c, p `prefix_of` k /\ Os.stat fs p = inr (Os.File t c).

(** The record the listing makes for the node [n] called [name] in the
  logical directory [dirPath]. *)
Definition fileOf (dirPath name : string) (n : Os.node) : Api.File :=
  {| Api.Name := name;
     Api.Path := Filepath.Join [dirPath; name];
     Api.IsDir := Os.isDir n;
     Api.Size := Os.size n;
     Api.UpdatedAt := Os.modTime n |}.

(** The directory entry of the node [n] called [name]. *)
Definition entryOf (name : string) (n : Os.node) : Os.DirEntry :=
  {| Os.Name := name; Os.IsDir := Os.isDir n;
     Os.Size := Os.size n; Os.ModTime := Os.modTime n |}.

(** The record the listing handler makes of a directory entry. *)
Definition toFile (dirPath : string) (f : Os.DirEntry) : Api.File :=
  {| Api.Name := Os.Name f;
     Api.Path := Filepath.Join [dirPath; Os.Name f];
     Api.IsDir := Os.IsDir f;
     Api.Size := Os.Size f;
     Api.UpdatedAt := Os.ModTime f |}.

(** The order of names, bytewise, on entries and on records. *)
Definition by_name (a b : Os.DirEntry) : Prop :=
  String.leb (Os.Name a) (Os.Name b) = true.

Definition by_file_name (a b : Api.File) : Prop :=
  String.leb (Api.Name a) (Api.Name b) = true.

End Effects.

(** * Part II: properties *)

(** ** The library functions on known inputs *)

Module FilepathTests.
Import Filepath.

Example clean_1 : Clean "abc//def//ghi" = "abc/def/ghi". Proof. reflexivity. Qed.
Example clean_2 : Clean "/../abc" = "/abc". Proof. reflexivity. Qed.
Example clean_3 : Clean "abc/def/../../.." = "..". Proof. reflexivity. Qed.
Example clean_4 : Clean "abc/./../def" = "def". Proof. reflexivity. Qed.
Example clean_5 : Clean "../../abc" = "../../abc". Proof. reflexivity. Qed.
Example clean_6 : Clean "abc/../../././../def" = "../../def". Proof. reflexivity. Qed.
Example clean_7 : Clean "" = ".". Proof. reflexivity. Qed.
Example clean_8 : Clean "/" = "/". Proof. reflexivity. Qed.
Example clean_9 : Clean "abc/def/ghi/../jkl" = "abc/def/jkl". Proof. reflexivity. Qed.
Example clean_10 : Clean "/abc/def/../../.." = "/". Proof. reflexivity. Qed.
Example clean_11 : Clean "abc/" = "abc". Proof. reflexivity. Qed.
Example clean_12 : Clean "./uploads" = "uploads". Proof. reflexivity. Qed.

Example join_1 : Join ["a"; "b"] = "a/b". Proof. reflexivity. Qed.
Example join_2 : Join ["a"; ""] = "a". Proof. reflexivity. Qed.
Example join_3 : Join [""; "b"] = "b". Proof. reflexivity. Qed.
Example join_4 : Join ["/"; "a"] = "/a". Proof. reflexivity. Qed.
Example join_5 : Join ["a"; "/b"] = "a/b". Proof. reflexivity. Qed.
Example join_6 : Join [""; ""] = "". Proof. reflexivity. Qed.

Example rel_1 : Rel "a/b" "a/b" = Some ".". Proof. reflexivity. Qed.
Example rel_2 : Rel "ab/cd" "ab/cde" = Some "../cde". Proof. reflexivity. Qed.
Example rel_3 : Rel "a/b" "a/b/c/d" = Some "c/d". Proof. reflexivity. Qed.
Example rel_4 : Rel "a/b/c" "a/c/d" = Some "../../c/d". Proof. reflexivity. Qed.
Example rel_5 : Rel "a/b/c/d" "a/b" = Some "../..". Proof. reflexivity. Qed.
Example rel_6 : Rel "/a/b" "/a/b/c/d" = Some "c/d". Proof. reflexivity. Qed.
Example rel_7 : Rel "/a/b/c" "/a/c/d" = Some "../../c/d". Proof. reflexivity. Qed.
Example rel_8 : Rel "." "a/b" = Some "a/b". Proof. reflexivity. Qed.
Example rel_9 : Rel "." ".." = Some "..". Proof. reflexivity. Qed.
Example rel_10 : Rel ".." "a" = None. Proof. reflexivity. Qed.
Example rel_11 : Rel "a" "/a" = None. Proof. reflexivity. Qed.
Example rel_12 : Rel "/" "/a" = Some "a". Proof. reflexivity. Qed.
Example rel_13 : Rel "/a" "/" = Some "..". Proof. reflexivity. Qed.

End FilepathTests.

Module LibraryTests.
Import Strings Http.

Example split_1 : Split "a/b//c" = ["a"; "b"; ""; "c"]. Proof. reflexivity. Qed.
Example split_2 : Split "" = [""]. Proof. reflexivity. Qed.
Example split_3 : Split "/a/" = [""; "a"; ""]. Proof. reflexivity. Qed.
Example has_prefix_1 : HasPrefix "../a" ".." = true. Proof. reflexivity. Qed.
Example has_prefix_2 : HasPrefix "." ".." = false. Proof. reflexivity. Qed.
Example has_suffix_1 : HasSuffix "/a/index.html" "/index.html" = true. Proof. reflexivity. Qed.
Example has_suffix_2 : HasSuffix "index.html" "/index.html" = false. Proof. reflexivity. Qed.
Example has_suffix_3 : HasSuffix "/download/" "/" = true. Proof. reflexivity. Qed.
Example trim_prefix_1 : TrimPrefix "/download/docs/a.txt" "/download" = "/docs/a.txt". Proof. reflexivity. Qed.
Example trim_prefix_2 : TrimPrefix "/download" "/download" = "". Proof. reflexivity. Qed.
Example trim_prefix_3 : TrimPrefix "/other" "/download" = "/other". Proof. reflexivity. Qed.
Example base_1 : Base "/download" = "download". Proof. reflexivity. Qed.
Example base_2 : Base "/a/b/" = "b". Proof. reflexivity. Qed.
Example base_3 : Base "" = ".". Proof. reflexivity. Qed.
Example base_4 : Base "///" = "/". Proof. reflexivity. Qed.
Example dotdot_1 : containsDotDot "/download/a/../b" = true. Proof. reflexivity. Qed.
Example dotdot_2 : containsDotDot "/download/..cache" = false. Proof. reflexivity. Qed.
Example dotdot_3 : containsDotDot "/download/a..b/c" = false. Proof. reflexivity. Qed.

Example key_1 : Os.key "uploads/docs/a.txt" = ["uploads"; "docs"; "a.txt"]. Proof. reflexivity. Qed.
Example key_2 : Os.key "." = []. Proof. reflexivity. Qed.
Example key_3 : Os.key "../etc" = [".."; "etc"]. Proof. reflexivity. Qed.

End LibraryTests.

Module HandlerTests.
Import Http Server Samples.

(** The scenario of the interface description: mkdir, upload, list,
  download. *)
Definition after_mkdir : world :=
  (handleAPIMkdir (post "/api/mkdir" (JSONObject "/" "reports")) w0).2.

Definition after_upload : world :=
  (handleAPIUpload
     (post "/api/upload"
        (Multipart [value "path" "/reports"; file "file" "a.txt" "0123456789"]))
     after_mkdir).2.

Example scenario_mkdir :
  (handleAPIMkdir (post "/api/mkdir" (JSONObject "/" "reports")) w0).1
  = ok (JSONMessage {| Api.Success := true;
                       Api.Message := "Directory 'reports' created successfully" |}).
Proof. reflexivity. Qed.

Example scenario_upload :
  (handleAPIUpload
     (post "/api/upload"
        (Multipart [value "path" "/reports"; file "file" "a.txt" "0123456789"]))
     after_mkdir).1
  = ok (JSONMessage {| Api.Success := true;
                       Api.Message := "File uploaded successfully to /reports/a.txt" |}).
Proof. reflexivity. Qed.

Example scenario_list :
  (handleAPIFiles (get "/api/files" [("path", "/reports")]) after_upload).1
  = ok (JSONFiles "/reports"
          [{| Api.Name := "a.txt"; Api.Path := "/reports/a.txt";
              Api.IsDir := false; Api.Size := 10; Api.UpdatedAt := 100 |}]).
Proof. reflexivity. Qed.

Example scenario_download :
  (handleDownload (get "/download/reports/a.txt" []) after_upload).1
  = ok (FileBytes "0123456789").
Proof. reflexivity. Qed.

Example listing_a_file_fails :
  (handleAPIFiles (get "/api/files" [("path", "/docs/a.txt")]) w0).1
  = sendJSONError "Failed to read directory" StatusInternalServerError.
Proof. reflexivity. Qed.

Example download_directory_redirects :
  (handleDownload (get "/download/docs" []) w0).1
  = Redirect "/?path=/docs" StatusFound.
Proof. reflexivity. Qed.

Example download_missing :
  (handleDownload (get "/download/nope" []) w0).1
  = Error "File not found" StatusNotFound.
Proof. reflexivity. Qed.

Example traversals_refused :
  Forall (fun p =>
            handleAPIFiles (get "/api/files" [("path", p)]) w0
            = (sendJSONError "Invalid path" StatusBadRequest, w0))
         [".."; "../etc"; "a/../../etc"; "a/b/../../.."; "./../x";
          "a//..//../etc"; "docs/../../uploads/../x"; "..\..\etc"].
Proof. repeat constructor. Qed.

Example mkdir_traversal_refused :
  handleAPIMkdir (post "/api/mkdir" (JSONObject "/docs" "../../x")) w0
  = (sendJSONError "Invalid path" StatusBadRequest, w0).
Proof. reflexivity. Qed.

Example query_path_comes_first :
  FormValue {| Method := MethodPost; URLPath := "/api/upload";
               Query := [("path", "/q")]; Body := NoBody |}
            {| Value := [("path", "/form")]; File := [] |} "path" = "/q".
Proof. reflexivity. Qed.

End HandlerTests.

(** ** Splitting and joining *)

Section SplitJoin.
Import Strings.

Lemma Split_nonempty s : Split s <> [].
Proof.
  destruct s as [|c s]; simpl; [discriminate|].
  destruct (Ascii.eqb c "/"); [discriminate|].
  destruct (Split s); discriminate.
Qed.

Lemma Split_no_slash s : Forall (fun e => has_slash e = false) (Split s).
Proof.
  induction s as [|c s IH]; simpl.
  - constructor; [reflexivity|constructor].
  - destruct (Ascii.eqb c "/") eqn:Hc.
    + constructor; [reflexivity|exact IH].
    + destruct (Split s) as [|e es]; simpl.
      * constructor; [simpl; rewrite Hc; reflexivity|constructor].
      * inversion IH; subst. constructor; [simpl; rewrite Hc; simpl; assumption|assumption].
Qed.

(** Splitting distributes over a slash. *)
Lemma Split_app_slash a b :
  Split (a +:+ String "/" b) = (Split a ++ Split b)%list.
Proof.
  induction a as [|c a IH]; simpl.
  - reflexivity.
  - destruct (Ascii.eqb c "/"); [rewrite IH; reflexivity|].
    rewrite IH. destruct (Split a) as [|e es] eqn:E.
    + exfalso. exact (Split_nonempty a E).
    + reflexivity.
Qed.

Lemma Split_slash_free e : has_slash e = false -> Split e = [e].
Proof.
  induction e as [|c e IH]; simpl; [reflexivity|].
  destruct (Ascii.eqb c "/"); simpl; [discriminate|].
  intros H. rewrite (IH H). reflexivity.
Qed.

(** Joining and splitting again gives the elements back. *)
Lemma Split_Join es :
  es <> [] -> Forall (fun e => has_slash e = false) es ->
  Split (Join es) = es.
Proof.
  induction es as [|e es IH]; [congruence|]. intros _ H.
  inversion H as [|? ? He Hes]; subst.
  destruct es as [|e' es'].
  - simpl. apply Split_slash_free, He.
  - change (Join (e :: e' :: es')) with (e +:+ String "/" (Join (e' :: es'))).
    rewrite Split_app_slash, (Split_slash_free _ He), IH; [reflexivity|discriminate|assumption].
Qed.

End SplitJoin.


(** ** Cleaning *)

Section Cleaning.
Import Strings Filepath Confinement.

Lemma real_inv e :
  real e = true ->
  String.eqb e "" = false /\ String.eqb e "." = false /\
  String.eqb e ".." = false /\ has_slash e = false.
Proof.
  unfold real. intros H.
  repeat (apply andb_prop in H; destruct H as [H ?]).
  repeat split; apply negb_true_iff; assumption.
Qed.

Lemma repeat_snoc (x : string) n : (repeat x n ++ [x])%list = x :: repeat x n.
Proof. induction n; simpl; [reflexivity|]. rewrite IHn. reflexivity. Qed.

Lemma rev_repeat (x : string) n : rev (repeat x n) = repeat x n.
Proof.
  induction n; simpl; [reflexivity|]. rewrite IHn. apply repeat_snoc.
Qed.

(** The loop keeps the buffer in order: proper elements on top of the
  protected [..] elements. *)
Lemma clean_loop_form elems : forall reals dd,
  Forall (fun e => has_slash e = false) elems ->
  Forall (fun e => real e = true) reals ->
  exists reals' dd',
    clean_loop false elems (reals ++ repeat ".." dd)%list dd
    = (reals' ++ repeat ".." dd')%list
    /\ Forall (fun e => real e = true) reals'.
Proof.
  induction elems as [|e elems IH]; intros reals dd Hs Hr; simpl.
  - exists reals, dd. split; [reflexivity|assumption].
  - inversion Hs as [|? ? He Hes]; subst.
    destruct (String.eqb e "") eqn:E1; [apply IH; assumption|].
    destruct (String.eqb e ".") eqn:E2; [apply IH; assumption|].
    destruct (String.eqb e "..") eqn:E3.
    + destruct reals as [|x reals].
      * simpl. rewrite repeat_length, Nat.ltb_irrefl.
        apply (IH [] (S dd)); [assumption|constructor].
      * simpl. rewrite length_app, repeat_length.
        replace (dd <? S (length reals + dd))%nat with true
          by (symmetry; apply Nat.ltb_lt; lia).
        inversion Hr; subst. apply IH; assumption.
    + apply (IH (e :: reals) dd); [assumption|].
      constructor; [|assumption].
      unfold real. rewrite E1, E2, E3, He. reflexivity.
Qed.

(** Proper elements are copied. *)
Lemma clean_loop_reals isRooted reals : forall out dd,
  Forall (fun e => real e = true) reals ->
  clean_loop isRooted reals out dd = (rev reals ++ out)%list.
Proof.
  induction reals as [|e reals IH]; intros out dd H; simpl; [reflexivity|].
  inversion H as [|? ? He Hes]; subst.
  destruct (real_inv _ He) as (E1 & E2 & E3 & _).
  rewrite E1, E2, E3, IH by assumption.
  rewrite <- app_assoc. reflexivity.
Qed.

(** Leading [..] elements of a relative path are kept. *)
Lemma clean_loop_dots n : forall k rest,
  clean_loop false (repeat ".." n ++ rest)%list (repeat ".." k) k
  = clean_loop false rest (repeat ".." (n + k)) (n + k).
Proof.
  induction n as [|n IH]; intros k rest; simpl; [reflexivity|].
  rewrite repeat_length, Nat.ltb_irrefl.
  change (".." :: repeat ".." k) with (repeat ".." (S k)).
  rewrite IH. replace (n + S k) with (S (n + k)) by lia. reflexivity.
Qed.

Lemma clean_form_no_slash es :
  clean_form es -> Forall (fun e => has_slash e = false) es.
Proof.
  intros (n & reals & -> & Hr). apply Forall_app. split.
  - clear. induction n; simpl; constructor; [reflexivity|assumption].
  - eapply Forall_impl; [exact Hr|]. intros e He. apply (real_inv _ He).
Qed.

Lemma clean_form_hd e es :
  clean_form (e :: es) -> String.eqb e "" = false /\ rooted e = false.
Proof.
  intros (n & reals & E & Hr).
  assert (H : e = ".." \/ real e = true).
  { destruct n; simpl in E.
    - destruct reals; inversion E; subst. inversion Hr; subst. right. assumption.
    - inversion E. left. reflexivity. }
  destruct H as [->|H]; [split; reflexivity|].
  destruct (real_inv _ H) as (E1 & _ & _ & E4). split; [assumption|].
  destruct e as [|c e]; [reflexivity|]. simpl in *.
  apply orb_false_iff in E4. apply E4.
Qed.

Lemma clean_form_tail e es : clean_form (e :: es) -> clean_form es.
Proof.
  intros (n & reals & E & Hr). destruct n; simpl in E.
  - destruct reals; inversion E; subst. inversion Hr; subst.
    exists 0, reals. split; [reflexivity|assumption].
  - inversion E; subst. exists n, reals. split; [reflexivity|assumption].
Qed.

Lemma Join_cons_hd e es :
  Strings.Join (e :: es) = e \/ exists rest, Strings.Join (e :: es) = e +:+ String "/" rest.
Proof.
  destruct es as [|e' es]; [left; reflexivity|].
  right. exists (Strings.Join (e' :: es)). reflexivity.
Qed.

Lemma append_hd_props e rest :
  String.eqb e "" = false ->
  String.eqb (e +:+ rest) "" = false /\ rooted (e +:+ rest) = rooted e.
Proof.
  destruct e; [discriminate|]. intros _. split; reflexivity.
Qed.

Lemma render_props es :
  clean_form es ->
  String.eqb (render es) "" = false /\ rooted (render es) = false.
Proof.
  intros H. destruct es as [|e es]; [split; reflexivity|].
  destruct (clean_form_hd _ _ H) as [E1 E2].
  unfold render. destruct (Join_cons_hd e es) as [->|[rest ->]].
  - split; assumption.
  - destruct (append_hd_props e (String "/" rest) E1) as [-> ->].
    split; [reflexivity|assumption].
Qed.

Lemma Split_render es :
  clean_form es -> es <> [] -> Split (render es) = es.
Proof.
  intros H Hne. destruct es as [|e es]; [congruence|].
  unfold render. apply Split_Join; [discriminate|].
  apply clean_form_no_slash, H.
Qed.

Lemma clean_elems_render es :
  clean_form es -> es <> [] -> clean_elems (render es) = es.
Proof.
  intros H Hne. unfold clean_elems.
  destruct (render_props _ H) as [_ ->].
  rewrite (Split_render _ H Hne).
  destruct H as (n & reals & -> & Hr).
  pose proof (clean_loop_dots n 0 reals) as Hd. simpl in Hd. rewrite Hd.
  rewrite Nat.add_0_r, clean_loop_reals by assumption.
  rewrite rev_app_distr, rev_involutive, rev_repeat. reflexivity.
Qed.

(** [Clean] leaves a cleaned relative path alone. *)
Lemma Clean_render es : clean_form es -> Clean (render es) = render es.
Proof.
  intros H. destruct es as [|e es]; [reflexivity|].
  unfold Clean. destruct (render_props _ H) as [-> ->].
  rewrite (clean_elems_render _ H) by discriminate. reflexivity.
Qed.

End Cleaning.

(** ** Paths formed under the upload directory *)

Section UnderRoot.
Import Strings Filepath Confinement Server.

Lemma Clean_uploadPath : Clean uploadPath = "uploads".
Proof. reflexivity. Qed.

Lemma StorageRoot_key : StorageRoot = ["uploads"].
Proof. reflexivity. Qed.

Lemma resolve_eq p : resolve p = Clean ("./uploads/" +:+ Clean p).
Proof. reflexivity. Qed.

Lemma resolve_in_eq parent name :
  resolve_in parent name
  = Clean ("./uploads/" +:+ (Clean parent +:+ String "/" name)).
Proof. reflexivity. Qed.

(** Whatever is joined onto the upload directory, the result is a cleaned
  relative path. *)
Lemma Clean_under_root t :
  exists es, clean_form es /\ Clean ("./uploads/" +:+ t) = render es.
Proof.
  destruct (clean_loop_form (Split t) ["uploads"] 0 (Split_no_slash t))
    as (reals & dd & E & Hr).
  { constructor; [reflexivity|constructor]. }
  exists (repeat ".." dd ++ rev reals)%list. split.
  - exists dd, (rev reals). split; [reflexivity|].
    apply Forall_forall. intros x Hx. rewrite Forall_forall in Hr.
    apply Hr. apply list_elem_of_In. apply list_elem_of_In in Hx.
    apply in_rev. exact Hx.
  - unfold Clean. change (String.eqb ("./uploads/" +:+ t) "") with false.
    change (rooted ("./uploads/" +:+ t)) with false. cbv iota.
    assert (Hc : clean_elems ("./uploads/" +:+ t)
                 = (repeat ".." dd ++ rev reals)%list).
    { unfold clean_elems. change (rooted ("./uploads/" +:+ t)) with false.
      change ("./uploads/" +:+ t)
        with ("." +:+ String "/" ("uploads" +:+ String "/" t)).
      rewrite !Split_app_slash.
      change (clean_loop false (Split "." ++ Split "uploads" ++ Split t) [] 0)
        with (clean_loop false (Split t) (["uploads"] ++ repeat ".." 0) 0).
      rewrite E, rev_app_distr, rev_repeat. reflexivity. }
    rewrite Hc. destruct (repeat ".." dd ++ rev reals)%list; reflexivity.
Qed.

Lemma resolve_form p : exists es, clean_form es /\ resolve p = render es.
Proof. rewrite resolve_eq. apply Clean_under_root. Qed.

Lemma resolve_in_form parent name :
  exists es, clean_form es /\ resolve_in parent name = render es.
Proof. rewrite resolve_in_eq. apply Clean_under_root. Qed.

Lemma clean_form_keep es :
  clean_form es ->
  Forall (fun e => negb (String.eqb e "") && negb (String.eqb e ".") = true) es.
Proof.
  intros (n & reals & -> & Hr). apply Forall_app. split.
  - clear. induction n; simpl; constructor; [reflexivity|assumption].
  - eapply Forall_impl; [exact Hr|]. intros e He.
    destruct (real_inv _ He) as (-> & -> & _). reflexivity.
Qed.

Lemma filter_all {A : Type} (f : A -> bool) l :
  Forall (fun x => f x = true) l -> List.filter f l = l.
Proof.
  induction 1 as [|x l Hx _ IH]; simpl; [reflexivity|].
  rewrite Hx, IH. reflexivity.
Qed.

(** The file system walks exactly the elements of a cleaned path. *)
Lemma key_render es : clean_form es -> Os.key (render es) = es.
Proof.
  intros H. destruct es as [|e es]; [reflexivity|].
  unfold Os.key. rewrite (Split_render _ H) by discriminate.
  apply filter_all, clean_form_keep, H.
Qed.

Lemma within_root_render es :
  clean_form es ->
  within_root (render es) = match es with
                            | e :: _ => String.eqb "uploads" e
                            | [] => false
                            end.
Proof.
  intros H. unfold within_root. rewrite (key_render _ H), StorageRoot_key.
  destruct es as [|e es]; [reflexivity|]. simpl.
  apply andb_true_r.
Qed.

Lemma rel_elems_render es :
  clean_form es -> es <> [] -> rel_elems (render es) = es.
Proof.
  intros H Hne. unfold rel_elems. rewrite (Split_render _ H Hne).
  destruct (rev es) as [|s l] eqn:E.
  - apply (f_equal (@rev string)) in E. rewrite rev_involutive in E.
    simpl in E. congruence.
  - assert (Hin : In s es) by (apply in_rev; rewrite E; left; reflexivity).
    pose proof (clean_form_keep _ H) as Hk. rewrite Forall_forall in Hk.
    specialize (Hk s (proj2 (list_elem_of_In _ _) Hin)).
    destruct s; [discriminate|reflexivity].
Qed.

Lemma render_root_inv es :
  clean_form es -> render es = "uploads" -> es = ["uploads"].
Proof.
  intros H E. destruct es as [|e es]; [discriminate|].
  rewrite <- (Split_render _ H) by discriminate. rewrite E. reflexivity.
Qed.

Lemma Rel_render es :
  clean_form es -> Rel uploadPath (render es) = Some (rel_of es).
Proof.
  intros H. destruct es as [|e rest]; [reflexivity|].
  unfold Rel. rewrite Clean_uploadPath, (Clean_render _ H).
  destruct (render_props _ H) as [_ Hroot].
  unfold rel_of. destruct (String.eqb_spec "uploads" e) as [<-|Hne].
  - destruct rest as [|t rest]; [reflexivity|].
    change (String.eqb (render ("uploads" :: t :: rest)) "uploads") with false.
    cbv iota. change (String.eqb "uploads" ".") with false. cbv iota.
    rewrite Hroot. change (rooted "uploads") with false.
    change (rel_elems "uploads") with ["uploads"].
    rewrite (rel_elems_render _ H) by discriminate. reflexivity.
  - destruct (String.eqb_spec (render (e :: rest)) "uploads") as [E|_].
    { apply (render_root_inv _ H) in E. congruence. }
    change (String.eqb "uploads" ".") with false. cbv iota.
    rewrite Hroot. change (rooted "uploads") with false.
    change (rel_elems "uploads") with ["uploads"].
    rewrite (rel_elems_render _ H) by discriminate.
    simpl. destruct (String.eqb_spec e "uploads") as [E|_]; [congruence|].
    reflexivity.
Qed.

Lemma prefix_dotdot_slash t r :
  String.prefix ".." (t +:+ String "/" r) = String.prefix ".." t.
Proof.
  destruct t as [|c1 [|c2 t]].
  - reflexivity.
  - change (String c1 "" +:+ String "/" r) with (String c1 (String "/" r)).
    cbn [String.prefix].
    destruct (ascii_dec "." c1); [|reflexivity].
    destruct (ascii_dec "." "/"); [discriminate|reflexivity].
  - change (String c1 (String c2 t) +:+ String "/" r)
      with (String c1 (String c2 (t +:+ String "/" r))).
    cbn [String.prefix].
    destruct (ascii_dec "." c1); [|reflexivity].
    destruct (ascii_dec "." c2); [|reflexivity].
    destruct t; reflexivity.
Qed.

Lemma HasPrefix_Join t rest :
  HasPrefix (Strings.Join (t :: rest)) ".." = String.prefix ".." t.
Proof.
  unfold HasPrefix. destruct (Join_cons_hd t rest) as [->|[r ->]];
    [reflexivity|apply prefix_dotdot_slash].
Qed.

(** What the guard decides, read off the elements of the full path: the
  first element must be the upload directory, and the element below it,
  if any, must not begin with two dots. *)
Lemma guard_render es :
  clean_form es ->
  guard (render es) = match es with
                      | [] => false
                      | [e] => String.eqb "uploads" e
                      | e :: t :: _ =>
                          String.eqb "uploads" e && negb (String.prefix ".." t)
                      end.
Proof.
  intros H. unfold guard. rewrite (Rel_render _ H). unfold rel_of.
  destruct es as [|e [|t rest]]; [reflexivity| |].
  - destruct (String.eqb "uploads" e); [reflexivity|].
    rewrite HasPrefix_Join. reflexivity.
  - destruct (String.eqb "uploads" e).
    + rewrite HasPrefix_Join. reflexivity.
    + rewrite HasPrefix_Join. reflexivity.
Qed.

(** A path the guard lets through is the upload directory or lies below. *)
Lemma guard_within_render es :
  clean_form es -> guard (render es) = true -> within_root (render es) = true.
Proof.
  intros H. rewrite (guard_render _ H), (within_root_render _ H).
  destruct es as [|e [|t rest]]; [discriminate|tauto|].
  intros G. apply andb_prop in G. apply G.
Qed.

(** A path that is neither the upload directory nor below it is refused. *)
Lemma outside_refused_render es :
  clean_form es -> within_root (render es) = false -> guard (render es) = false.
Proof.
  intros H. rewrite (guard_render _ H), (within_root_render _ H).
  destruct es as [|e [|t rest]]; [reflexivity|tauto|].
  intros ->. reflexivity.
Qed.

(** A string whose first element is [..] begins with two dots. *)
Lemma parent_first_prefix relPath :
  parent_first relPath = true -> HasPrefix relPath ".." = true.
Proof.
  unfold parent_first, HasPrefix. intros H.
  destruct relPath as [|c1 relPath]; [discriminate|].
  simpl in H. destruct (Ascii.eqb_spec c1 "/") as [->|N1]; [discriminate|].
  destruct relPath as [|c2 relPath].
  { simpl in H. destruct c1 as [[] [] [] [] [] [] [] []]; discriminate. }
  simpl in H. destruct (Ascii.eqb_spec c2 "/") as [->|N2].
  { simpl in H. destruct c1 as [[] [] [] [] [] [] [] []]; discriminate. }
  destruct (Split relPath) as [|e es] eqn:E.
  { exfalso. exact (Split_nonempty _ E). }
  simpl in H.
  destruct (Ascii.eqb_spec c1 ".") as [->|]; [|discriminate].
  destruct (Ascii.eqb_spec c2 ".") as [->|]; [|discriminate].
  destruct relPath; reflexivity.
Qed.

(** The guard, in the words of the specification: the relative path from
  the upload directory exists and does not begin with a parent-directory
  segment. *)
Lemma guard_rel fullPath :
  guard fullPath = true ->
  exists relPath, Rel uploadPath fullPath = Some relPath /\
                  parent_first relPath = false.
Proof.
  unfold guard. destruct (Rel uploadPath fullPath) as [relPath|]; [|discriminate].
  intros G. exists relPath. split; [reflexivity|].
  destruct (parent_first relPath) eqn:P; [|reflexivity].
  rewrite (parent_first_prefix _ P) in G. discriminate.
Qed.

End UnderRoot.

(** ** The file system *)

Section FileSystem.
Import Os.
Local Open Scope list_scope.

Implicit Types (fs : gmap (list string) node) (k dir : list string).

Lemma walk_snoc fs k : forall dir e,
  walk fs dir (k ++ [e]) =
  match walk fs dir k with
  | inl err => inl err
  | inr n =>
      if isDir n then
        match fs !! (dir ++ k ++ [e]) with
        | None => inl ENOENT
        | Some n' => inr n'
        end
      else inl ENOTDIR
  end.
Proof.
  induction k as [|x k IH]; intros dir e; simpl.
  - destruct (fs !! dir) as [n|]; [|reflexivity].
    destruct (isDir n); reflexivity.
  - destruct (fs !! dir) as [n|]; [|reflexivity].
    destruct (isDir n); [|reflexivity].
    rewrite IH, <- app_assoc. reflexivity.
Qed.

Lemma stat_snoc fs k e :
  stat fs (k ++ [e]) =
  match stat fs k with
  | inl err => inl err
  | inr n =>
      if isDir n then
        match fs !! (k ++ [e]) with
        | None => inl ENOENT
        | Some n' => inr n'
        end
      else inl ENOTDIR
  end.
Proof. unfold stat. rewrite walk_snoc. reflexivity. Qed.

Lemma stat_nil fs :
  stat fs [] = match fs !! [] with None => inl ENOENT | Some n => inr n end.
Proof. reflexivity. Qed.

(** A node that is found is the node stored under its path. *)
Lemma stat_lookup fs k n : stat fs k = inr n -> fs !! k = Some n.
Proof.
  destruct k as [|e k _] using rev_ind.
  - rewrite stat_nil. destruct (fs !! []); congruence.
  - rewrite stat_snoc. destruct (stat fs k) as [|m]; [discriminate|].
    destruct (isDir m); [|discriminate].
    destruct (fs !! (k ++ [e])); congruence.
Qed.

(** Writing a node does not change what is found at paths that do not
  pass through it. *)
Lemma stat_insert_other fs k v p :
  ~ k `prefix_of` p -> stat (<[k := v]> fs) p = stat fs p.
Proof.
  induction p as [|e p IH] using rev_ind; intros Hk.
  - rewrite !stat_nil, lookup_insert_ne; [reflexivity|].
    intros ->. apply Hk. exists []. reflexivity.
  - rewrite !stat_snoc, IH.
    + rewrite lookup_insert_ne; [reflexivity|].
      intros ->. apply Hk. exists []. rewrite app_nil_r. reflexivity.
    + intros [q ->]. apply Hk. exists (q ++ [e]).
      rewrite app_assoc. reflexivity.
Qed.

Lemma snoc_not_prefix (p : list string) e : ~ (p ++ [e]) `prefix_of` p.
Proof.
  intros [q E]. apply (f_equal (@length string)) in E.
  rewrite !length_app in E. simpl in E. lia.
Qed.

(** Stamping a directory anew keeps it a directory. *)
Lemma stat_insert_dir fs p t t' :
  stat fs p = inr (Dir t) -> stat (<[p := Dir t']> fs) p = inr (Dir t').
Proof.
  destruct p as [|e p _] using rev_ind; intros H.
  - rewrite stat_nil, lookup_insert_eq. reflexivity.
  - rewrite stat_snoc in H. rewrite stat_snoc.
    rewrite stat_insert_other by apply snoc_not_prefix.
    destruct (stat fs p) as [|m]; [discriminate|].
    destruct (isDir m); [|discriminate].
    rewrite lookup_insert_eq. reflexivity.
Qed.

Lemma removelast_snoc (p : list string) e : removelast (p ++ [e]) = p.
Proof. apply removelast_last. Qed.

(** A directory that was made is there. *)
Lemma mkdir_ok fs now k fs' :
  mkdir fs now k = inr fs' -> stat fs' k = inr (Dir now).
Proof.
  unfold mkdir. destruct k as [|e p _] using rev_ind.
  - simpl. rewrite stat_nil. destruct (fs !! []) as [[]|]; discriminate.
  - rewrite removelast_snoc.
    destruct (stat fs p) as [|[t|t c]] eqn:Hp; try discriminate.
    destruct (fs !! (p ++ [e])); [discriminate|].
    intros E. inversion E; subst. clear E.
    rewrite stat_snoc, stat_insert_other by apply snoc_not_prefix.
    rewrite (stat_insert_dir _ _ _ now Hp). simpl.
    rewrite lookup_insert_eq. reflexivity.
Qed.

(** When [MkdirAll] reports no error the directory is there. *)
Lemma mkdirAll_ok fs now rk fs' :
  mkdirAll fs now rk = (fs', None) ->
  exists t, stat fs' (rev rk) = inr (Dir t).
Proof.
  assert (Hfin : forall fs1 fs2,
    match mkdir fs1 now (rev rk) with
    | inr fs2 => (fs2, None)
    | inl e => match stat fs1 (rev rk) with
               | inr (Dir _) => (fs1, None)
               | _ => (fs1, Some e)
               end
    end = (fs2, None) -> exists t, stat fs2 (rev rk) = inr (Dir t)).
  { intros fs1 fs2. destruct (mkdir fs1 now (rev rk)) as [e|fs3] eqn:Hm.
    - destruct (stat fs1 (rev rk)) as [|[t|t c]] eqn:Hs; try discriminate.
      intros E. inversion E; subst. eauto.
    - intros E. inversion E; subst. exists now. eapply mkdir_ok, Hm. }
  destruct rk as [|e rp]; cbn [mkdirAll].
  - destruct (stat fs (rev [])) as [|n] eqn:Hs.
    + destruct (mkdir fs now (rev [])) eqn:Hm; [discriminate|].
      intros E. inversion E; subst. exists now. eapply mkdir_ok, Hm.
    + destruct n; cbn [isDir]; intros E; inversion E; subst; eauto.
  - destruct (stat fs (rev (e :: rp))) as [|n] eqn:Hs.
    + destruct rp as [|e' rp'].
      * destruct (mkdir fs now (rev [e])) eqn:Hm; [discriminate|].
        intros E. inversion E; subst. exists now. eapply mkdir_ok, Hm.
      * destruct (mkdirAll fs now (e' :: rp')) as [fs1 [err|]]; [discriminate|].
        apply Hfin.
    + destruct n; cbn [isDir]; intros E; inversion E; subst; eauto.
Qed.

(** The fast path: an existing directory is left as it is. *)
Lemma mkdirAll_fast fs now rk t :
  stat fs (rev rk) = inr (Dir t) -> mkdirAll fs now rk = (fs, None).
Proof.
  intros H. destruct rk as [|e rp]; cbn [mkdirAll]; rewrite H; reflexivity.
Qed.

Lemma MkdirAll_ok fs now path fs' :
  MkdirAll fs now path = (fs', None) -> exists t, Stat fs' path = inr (Dir t).
Proof.
  unfold MkdirAll, Stat. intros H. apply mkdirAll_ok in H.
  rewrite rev_involutive in H. exact H.
Qed.

(** [MkdirAll] twice is [MkdirAll] once, whatever the clock says. *)
Lemma MkdirAll_again fs now now' path fs' :
  MkdirAll fs now path = (fs', None) -> MkdirAll fs' now' path = (fs', None).
Proof.
  intros H. apply MkdirAll_ok in H. destruct H as [t H].
  unfold MkdirAll. eapply mkdirAll_fast. rewrite rev_involutive. exact H.
Qed.

(** Reading a directory that is not there fails with the error of [Stat]. *)
Lemma ReadDir_absent fs name e :
  Stat fs name = inl e -> ReadDir fs name = inl e.
Proof. unfold ReadDir. intros ->. reflexivity. Qed.

End FileSystem.

(** ** The confinement guard in the handlers *)

Section Guard.
Import Http Server Confinement.
Local Open Scope list_scope.

Lemma guard_intro fullPath relPath :
  Filepath.Rel uploadPath fullPath = Some relPath ->
  Strings.HasPrefix relPath ".." = false ->
  guard fullPath = true.
Proof. unfold guard. intros -> ->. reflexivity. Qed.

Lemma guard_elim fullPath :
  guard fullPath = false ->
  match Filepath.Rel uploadPath fullPath with
  | None => True
  | Some relPath => Strings.HasPrefix relPath ".." = true
  end.
Proof.
  unfold guard. destruct (Filepath.Rel uploadPath fullPath); [|tauto].
  intros H. apply negb_false_iff, H.
Qed.

Lemma guarded_render es :
  clean_form es -> guard (render es) = true -> guarded (render es).
Proof.
  intros H G. split; [exact G|]. split.
  - apply guard_rel, G.
  - apply guard_within_render; assumption.
Qed.

Lemma guarded_resolve p : guard (resolve p) = true -> guarded (resolve p).
Proof.
  destruct (resolve_form p) as (es & H & ->). apply guarded_render, H.
Qed.

Lemma guarded_resolve_in parent name :
  guard (resolve_in parent name) = true -> guarded (resolve_in parent name).
Proof.
  destruct (resolve_in_form parent name) as (es & H & ->).
  apply guarded_render, H.
Qed.

Lemma outside_refused p :
  within_root (resolve p) = false -> guard (resolve p) = false.
Proof.
  destruct (resolve_form p) as (es & H & ->). apply outside_refused_render, H.
Qed.

Lemma outside_refused_in parent name :
  within_root (resolve_in parent name) = false ->
  guard (resolve_in parent name) = false.
Proof.
  destruct (resolve_in_form parent name) as (es & H & ->).
  apply outside_refused_render, H.
Qed.

(** The listing handler, with its guard named. *)
Lemma handleAPIFiles_guard r w :
  handleAPIFiles r w =
  if guard (resolve (listPath r)) then
    match Os.ReadDir (fs w) (resolve (listPath r)) with
    | inl err =>
        (if Os.IsNotExist err then ok (JSONFiles (listPath r) [])
         else sendJSONError "Failed to read directory" StatusInternalServerError,
         record ReadDirOp (resolve (listPath r)) (fs w) w)
    | inr files =>
        (ok (JSONFiles (listPath r)
               (map (fun f =>
                       {| Api.Name := Os.Name f;
                          Api.Path := Filepath.Join [listPath r; Os.Name f];
                          Api.IsDir := Os.IsDir f;
                          Api.Size := Os.Size f;
                          Api.UpdatedAt := Os.ModTime f |}) files)),
         record ReadDirOp (resolve (listPath r)) (fs w) w)
    end
  else (sendJSONError "Invalid path" StatusBadRequest, w).
Proof.
  unfold handleAPIFiles, guard. cbv zeta.
  change (Filepath.Join [uploadPath; Filepath.Clean
            (if String.eqb (QueryGet r "path") "" then "/" else QueryGet r "path")])
    with (resolve (listPath r)).
  change (if String.eqb (QueryGet r "path") "" then "/" else QueryGet r "path")
    with (listPath r).
  destruct (Filepath.Rel uploadPath (resolve (listPath r))) as [relPath|];
    [|reflexivity].
  destruct (Strings.HasPrefix relPath ".."); [reflexivity|].
  unfold bind, ReadDir. cbn [negb].
  destruct (Os.ReadDir (fs w) (resolve (listPath r))) as [err|files];
    [destruct (Os.IsNotExist err)|]; reflexivity.
Qed.

(** The mkdir handler past its request checks, with its guard named. *)
Lemma handleAPIMkdir_guard r w reqPath reqName :
  Method r = MethodPost ->
  Body r = JSONObject reqPath reqName ->
  reqName <> "" ->
  handleAPIMkdir r w =
  if guard (resolve_in reqPath reqName) then
    let (fs', err) := Os.MkdirAll (fs w) (now w) (resolve_in reqPath reqName) in
    (match err with
     | Some _ => sendJSONError "Failed to create directory" StatusInternalServerError
     | None => ok (JSONMessage {| Api.Success := true;
                                  Api.Message := "Directory '" +:+ reqName +:+
                                                 "' created successfully" |})
     end,
     record MkdirAllOp (resolve_in reqPath reqName) fs' w)
  else (sendJSONError "Invalid path" StatusBadRequest, w).
Proof.
  intros Hm Hb Hn. unfold handleAPIMkdir, DecodeJSON, guard.
  rewrite Hm, Hb. change (negb (String.eqb MethodPost MethodPost)) with false.
  cbv iota. destruct (String.eqb_spec reqName "") as [|_]; [contradiction|].
  cbv zeta.
  change (Filepath.Join [uploadPath; Filepath.Clean reqPath; reqName])
    with (resolve_in reqPath reqName).
  destruct (Filepath.Rel uploadPath (resolve_in reqPath reqName)) as [relPath|];
    [|reflexivity].
  destruct (Strings.HasPrefix relPath ".."); [reflexivity|].
  unfold bind, MkdirAll. cbn [negb].
  destruct (Os.MkdirAll (fs w) (now w) (resolve_in reqPath reqName)) as [fs' [e|]];
    reflexivity.
Qed.

(** The download handler past its method check, with its guard named. *)
Lemma handleDownload_guard r w :
  Method r = MethodGet ->
  handleDownload r w =
  if guard (resolve (downloadPath r)) then
    match Os.Stat (fs w) (resolve (downloadPath r)) with
    | inl _ =>
        (Error "File not found" StatusNotFound,
         record StatOp (resolve (downloadPath r)) (fs w) w)
    | inr fileInfo =>
        if Os.isDir fileInfo && negb (String.eqb (downloadPath r) "/") then
          (Redirect ("/?path=" +:+ downloadPath r) StatusFound,
           record StatOp (resolve (downloadPath r)) (fs w) w)
        else
          (Http.ServeFile (fs w) r (resolve (downloadPath r)),
           record ServeFileOp (resolve (downloadPath r)) (fs w)
             (record StatOp (resolve (downloadPath r)) (fs w) w))
    end
  else (Error "Invalid path" StatusBadRequest, w).
Proof.
  intros Hm. unfold handleDownload, guard. rewrite Hm.
  change (negb (String.eqb MethodGet MethodGet)) with false. cbv iota zeta.
  change (if String.eqb (Strings.TrimPrefix (URLPath r) "/download") "" then "/"
          else Strings.TrimPrefix (URLPath r) "/download")
    with (downloadPath r).
  change (Filepath.Join [uploadPath; Filepath.Clean (downloadPath r)])
    with (resolve (downloadPath r)).
  destruct (Filepath.Rel uploadPath (resolve (downloadPath r))) as [relPath|];
    [|reflexivity].
  destruct (Strings.HasPrefix relPath ".."); [reflexivity|].
  unfold bind, Stat, ServeFile. cbn [negb].
  destruct (Os.Stat (fs w) (resolve (downloadPath r))) as [e|n]; [reflexivity|].
  destruct (Os.isDir n && negb (String.eqb (downloadPath r) "/")); reflexivity.
Qed.

(** A wrong verb stops the handlers that look at the verb. *)
Lemma wrong_verb_rejected e r w :
  e <> APIFiles ->
  Method r <> verb e ->
  Status (handler e r w).1 = StatusMethodNotAllowed /\ (handler e r w).2 = w.
Proof.
  intros He Hm.
  destruct e; [| contradiction | | |]; cbn [handler verb] in *.
  - unfold handleIndex.
    destruct (String.eqb_spec (Method r) MethodGet); [contradiction|].
    split; reflexivity.
  - unfold handleAPIUpload.
    destruct (String.eqb_spec (Method r) MethodPost); [contradiction|].
    split; reflexivity.
  - unfold handleAPIMkdir.
    destruct (String.eqb_spec (Method r) MethodPost); [contradiction|].
    split; reflexivity.
  - unfold handleDownload.
    destruct (String.eqb_spec (Method r) MethodGet); [contradiction|].
    split; reflexivity.
Qed.

End Guard.

(** ** The claims *)

Section Claims.
Import Http Server Confinement Samples.
Local Open Scope list_scope.

(** C3. In the listing, mkdir and download handlers every file system call
  (ReadDir, MkdirAll, Stat, ServeFile) is made on a full path that has
  passed the confinement guard: the relative path from StorageRoot to it,
  computed lexically, does not begin with a parent-directory segment, and
  the path addresses StorageRoot or a node below it.  So these three
  handlers never touch a path outside StorageRoot. *)
Theorem checked_handlers_stay_in_root r w :
  (exists l, calls (handleAPIFiles r w).2 = calls w ++ l /\
             Forall (fun c => guarded (Target c)) l) /\
  (exists l, calls (handleAPIMkdir r w).2 = calls w ++ l /\
             Forall (fun c => guarded (Target c)) l) /\
  (exists l, calls (handleDownload r w).2 = calls w ++ l /\
             Forall (fun c => guarded (Target c)) l).
Proof.
  assert (Hnone : forall w0 : world,
            exists l, calls w0 = calls w0 ++ l /\
                      Forall (fun c => guarded (Target c)) l).
  { intros w0. exists []. rewrite app_nil_r. split; [reflexivity|constructor]. }
  split; [|split].
  - rewrite handleAPIFiles_guard.
    destruct (guard (resolve (listPath r))) eqn:G; [|apply Hnone].
    pose proof (guarded_resolve _ G) as HG.
    exists [{| Op := ReadDirOp; Target := resolve (listPath r) |}].
    split; [|constructor; [exact HG|constructor]].
    destruct (Os.ReadDir (fs w) (resolve (listPath r))); reflexivity.
  - destruct (String.eqb_spec (Method r) MethodPost) as [Hm|Hm].
    2:{ unfold handleAPIMkdir.
        destruct (String.eqb_spec (Method r) MethodPost); [contradiction|].
        apply Hnone. }
    destruct (Body r) as [|reqPath reqName| |] eqn:Hb;
      try (unfold handleAPIMkdir, DecodeJSON; rewrite Hm, Hb; apply Hnone).
    destruct (String.eqb_spec reqName "") as [->|Hn].
    { unfold handleAPIMkdir, DecodeJSON. rewrite Hm, Hb. apply Hnone. }
    rewrite (handleAPIMkdir_guard r w reqPath reqName Hm Hb Hn).
    destruct (guard (resolve_in reqPath reqName)) eqn:G; [|apply Hnone].
    pose proof (guarded_resolve_in _ _ G) as HG.
    exists [{| Op := MkdirAllOp; Target := resolve_in reqPath reqName |}].
    split; [|constructor; [exact HG|constructor]].
    destruct (Os.MkdirAll (fs w) (now w) (resolve_in reqPath reqName));
      reflexivity.
  - destruct (String.eqb_spec (Method r) MethodGet) as [Hm|Hm].
    2:{ unfold handleDownload.
        destruct (String.eqb_spec (Method r) MethodGet); [contradiction|].
        apply Hnone. }
    rewrite (handleDownload_guard r w Hm).
    destruct (guard (resolve (downloadPath r))) eqn:G; [|apply Hnone].
    pose proof (guarded_resolve _ G) as HG.
    destruct (Os.Stat (fs w) (resolve (downloadPath r))) as [e|n].
    + exists [{| Op := StatOp; Target := resolve (downloadPath r) |}].
      split; [reflexivity|constructor; [exact HG|constructor]].
    + destruct (Os.isDir n && negb (String.eqb (downloadPath r) "/")).
      * exists [{| Op := StatOp; Target := resolve (downloadPath r) |}].
        split; [reflexivity|constructor; [exact HG|constructor]].
      * exists [{| Op := StatOp; Target := resolve (downloadPath r) |};
                {| Op := ServeFileOp; Target := resolve (downloadPath r) |}].
        split; [cbn; rewrite <- app_assoc; reflexivity|].
        constructor; [exact HG|constructor; [exact HG|constructor]].
Qed.

(** C2, as the code has it. A logical path whose full path lies outside
  StorageRoot is refused, however the traversal is written: the guard
  rejects it, the listing answers 400 with the error "Invalid path" and
  the download answers 400, and no file system call is made. *)
Theorem escape_rejected p :
  within_root (resolve p) = false ->
  guard (resolve p) = false /\
  (forall r w, listPath r = p ->
     handleAPIFiles r w = (sendJSONError "Invalid path" StatusBadRequest, w)) /\
  (forall r w, Method r = MethodGet -> downloadPath r = p ->
     handleDownload r w = (Error "Invalid path" StatusBadRequest, w)).
Proof.
  intros H. pose proof (outside_refused _ H) as G.
  split; [exact G|]. split.
  - intros r w <-. rewrite handleAPIFiles_guard, G. reflexivity.
  - intros r w Hm <-. rewrite (handleDownload_guard r w Hm), G. reflexivity.
Qed.

Lemma escape_rejected_witness :
  within_root (resolve "a/../../etc") = false /\
  handleAPIFiles (get "/api/files" [("path", "a/../../etc")]) w0
  = (sendJSONError "Invalid path" StatusBadRequest, w0).
Proof.
  split; [reflexivity|].
  apply (escape_rejected "a/../../etc"); reflexivity.
Defined.

(** The mkdir handler refuses in the same way. *)
Lemma escape_rejected_mkdir r w reqPath reqName :
  Method r = MethodPost ->
  Body r = JSONObject reqPath reqName ->
  reqName <> "" ->
  within_root (resolve_in reqPath reqName) = false ->
  handleAPIMkdir r w = (sendJSONError "Invalid path" StatusBadRequest, w).
Proof.
  intros Hm Hb Hn H.
  rewrite (handleAPIMkdir_guard r w reqPath reqName Hm Hb Hn).
  rewrite (outside_refused_in _ _ H). reflexivity.
Qed.

(** C2, as stated, fails for the listing of [/../../etc]: cleaning a rooted
  path drops the [..] elements at its root, the full path is
  [uploads/etc], inside StorageRoot, and the answer is 200 with an empty
  list. *)
Lemma rooted_dotdot_is_listed :
  resolve "/../../etc" = "uploads/etc" /\
  handleAPIFiles (get "/api/files" [("path", "/../../etc")]) w0
  = (ok (JSONFiles "/../../etc" []),
     record ReadDirOp "uploads/etc" (fs w0) w0) /\
  (handleAPIFiles (get "/api/files" [("path", "/../../etc")]) w0).1
  <> sendJSONError "Invalid path" StatusBadRequest.
Proof.
  split; [reflexivity|]. split; [reflexivity|]. discriminate.
Qed.

(** C5. Listing a validated logical path whose directory does not exist
  answers 200 with an empty file list and changes nothing; the internal
  error 500 is the answer exactly when reading the directory fails for
  another reason than non-existence. *)
Theorem listing_of_absent_directory r w :
  guard (resolve (listPath r)) = true ->
  (forall e, Os.Stat (fs w) (resolve (listPath r)) = inl e ->
             Os.IsNotExist e = true ->
     (handleAPIFiles r w).1 = ok (JSONFiles (listPath r) []) /\
     fs (handleAPIFiles r w).2 = fs w) /\
  (Status (handleAPIFiles r w).1 = StatusInternalServerError
   <-> exists e, Os.ReadDir (fs w) (resolve (listPath r)) = inl e /\
                 Os.IsNotExist e = false).
Proof.
  intros G. rewrite handleAPIFiles_guard, G. split.
  - intros e Hs He. rewrite (ReadDir_absent _ _ _ Hs), He.
    split; reflexivity.
  - destruct (Os.ReadDir (fs w) (resolve (listPath r))) as [e|files].
    + destruct (Os.IsNotExist e) eqn:He; cbn [fst]; split.
      * discriminate.
      * intros (e' & E & He'). inversion E; subst. congruence.
      * intros _. exists e. split; [reflexivity|assumption].
      * reflexivity.
    + cbn [fst]. split; [discriminate|]. intros (e & E & _). discriminate.
Qed.

Lemma listing_of_absent_directory_witness :
  guard (resolve "/never/made") = true /\
  Os.Stat (fs w0) (resolve "/never/made") = inl Os.ENOENT /\
  (handleAPIFiles (get "/api/files" [("path", "/never/made")]) w0).1
  = ok (JSONFiles "/never/made" []).
Proof.
  split; [reflexivity|]. split; [reflexivity|].
  apply (proj1 (listing_of_absent_directory
                  (get "/api/files" [("path", "/never/made")]) w0 eq_refl)
               Os.ENOENT); reflexivity.
Defined.

(** C7. Creating a directory that already exists succeeds: after a
  successful mkdir request the same request, made at any later time,
  answers with the same success and leaves the file system as it is. *)
Theorem mkdir_idempotent r w now' calls' :
  Status (handleAPIMkdir r w).1 = StatusOK ->
  (handleAPIMkdir r {| fs := fs (handleAPIMkdir r w).2;
                       now := now'; calls := calls' |}).1
  = (handleAPIMkdir r w).1 /\
  fs (handleAPIMkdir r {| fs := fs (handleAPIMkdir r w).2;
                          now := now'; calls := calls' |}).2
  = fs (handleAPIMkdir r w).2.
Proof.
  destruct (String.eqb_spec (Method r) MethodPost) as [Hm|Hm].
  2:{ unfold handleAPIMkdir at 1.
      destruct (String.eqb_spec (Method r) MethodPost); [contradiction|].
      discriminate. }
  destruct (Body r) as [|reqPath reqName| |] eqn:Hb;
    try (unfold handleAPIMkdir at 1, DecodeJSON; rewrite Hm, Hb; discriminate).
  destruct (String.eqb_spec reqName "") as [->|Hn].
  { unfold handleAPIMkdir at 1, DecodeJSON. rewrite Hm, Hb. discriminate. }
  rewrite !(handleAPIMkdir_guard r _ reqPath reqName Hm Hb Hn).
  destruct (guard (resolve_in reqPath reqName)); [|discriminate].
  cbn [fs now].
  destruct (Os.MkdirAll (fs w) (now w) (resolve_in reqPath reqName))
    as [fs' [e|]] eqn:H1; [discriminate|].
  intros _. cbn [fst snd fs record].
  rewrite (MkdirAll_again _ _ now' _ _ H1). split; reflexivity.
Qed.

Lemma mkdir_idempotent_witness :
  Status (handleAPIMkdir (post "/api/mkdir" (JSONObject "/" "docs/new")) w0).1
  = StatusOK /\
  fs (handleAPIMkdir (post "/api/mkdir" (JSONObject "/" "docs/new"))
        {| fs := fs (handleAPIMkdir
                       (post "/api/mkdir" (JSONObject "/" "docs/new")) w0).2;
           now := 200; calls := [] |}).2
  = fs (handleAPIMkdir (post "/api/mkdir" (JSONObject "/" "docs/new")) w0).2.
Proof.
  split; [reflexivity|].
  apply (mkdir_idempotent (post "/api/mkdir" (JSONObject "/" "docs/new")) w0
                          200 []).
  reflexivity.
Defined.

(** The upload handler up to the point where it asks for the file. *)
Lemma handleAPIUpload_start r w form :
  Method r = MethodPost ->
  ParseMultipartForm r (Z.shiftl 32 20) = Some form ->
  handleAPIUpload r w =
  let fullDirPath := resolve (uploadDir r form) in
  let (fs', err) := Os.MkdirAll (fs w) (now w) fullDirPath in
  match err with
  | Some _ =>
      (sendJSONError "Failed to create directory" StatusInternalServerError,
       record MkdirAllOp fullDirPath fs' w)
  | None =>
      match FormFile form "file" with
      | None =>
          (sendJSONError "Failed to get file from form" StatusBadRequest,
           record MkdirAllOp fullDirPath fs' w)
      | Some handler =>
          (fullPath <~ ret (Filepath.Join [fullDirPath; Filename handler]) ;;
           err <~ Create fullPath ;;
           match err with
           | Some _ =>
               ret (sendJSONError "Failed to create file on server"
                                  StatusInternalServerError)
           | None =>
               err <~ Copy fullPath (content handler) ;;
               match err with
               | Some _ =>
                   ret (sendJSONError "Failed to save file"
                                      StatusInternalServerError)
               | None =>
                   ret (ok (JSONMessage
                              {| Api.Success := true;
                                 Api.Message :=
                                   "File uploaded successfully to " +:+
                                   Filepath.Join [uploadDir r form;
                                                  Filename handler] |}))
               end
           end) (record MkdirAllOp fullDirPath fs' w)
      end
  end.
Proof.
  intros Hm Hp. unfold handleAPIUpload. rewrite Hm, Hp.
  change (negb (String.eqb MethodPost MethodPost)) with false.
  cbv iota zeta.
  change (if String.eqb (FormValue r form "path") "" then "/"
          else FormValue r form "path") with (uploadDir r form).
  change (Filepath.Join [uploadPath; Filepath.Clean (uploadDir r form)])
    with (resolve (uploadDir r form)).
  unfold bind at 1. unfold MkdirAll.
  destruct (Os.MkdirAll (fs w) (now w) (resolve (uploadDir r form)))
    as [fs' [e|]]; [reflexivity|].
  destruct (FormFile form "file"); reflexivity.
Qed.

(** C10. An upload request that parses as a multipart form but has no
  [file] field is answered with the client error 400, and yet the
  directory chain named by its [path] field has been made by then:
  MkdirAll ran before the field was looked for, and the directory stays. *)
Theorem upload_without_file_makes_directory r w form fs' :
  Method r = MethodPost ->
  ParseMultipartForm r (Z.shiftl 32 20) = Some form ->
  FormFile form "file" = None ->
  Os.MkdirAll (fs w) (now w) (resolve (uploadDir r form)) = (fs', None) ->
  (handleAPIUpload r w).1
  = sendJSONError "Failed to get file from form" StatusBadRequest /\
  calls (handleAPIUpload r w).2
  = calls w ++ [{| Op := MkdirAllOp; Target := resolve (uploadDir r form) |}] /\
  fs (handleAPIUpload r w).2 = fs' /\
  exists t, Os.Stat (fs (handleAPIUpload r w).2) (resolve (uploadDir r form))
            = inr (Os.Dir t).
Proof.
  intros Hm Hp Hf Hd. rewrite (handleAPIUpload_start r w form Hm Hp).
  cbv zeta. rewrite Hd, Hf. cbn [fst snd fs calls record].
  repeat split. apply (MkdirAll_ok _ _ _ _ Hd).
Qed.

Lemma upload_without_file_makes_directory_witness :
  Os.Stat (fs w0) "uploads/new/dir" = inl Os.ENOENT /\
  (handleAPIUpload (post "/api/upload" (Multipart [value "path" "/new/dir"])) w0).1
  = sendJSONError "Failed to get file from form" StatusBadRequest /\
  exists t,
    Os.Stat (fs (handleAPIUpload
                   (post "/api/upload" (Multipart [value "path" "/new/dir"])) w0).2)
            "uploads/new/dir" = inr (Os.Dir t).
Proof.
  split; [reflexivity|].
  pose proof (upload_without_file_makes_directory
                (post "/api/upload" (Multipart [value "path" "/new/dir"])) w0
                {| Value := [("path", "/new/dir")]; File := [] |}
                (Os.MkdirAll (fs w0) (now w0) "uploads/new/dir").1
                eq_refl eq_refl eq_refl eq_refl) as (H1 & _ & _ & H4).
  split; [exact H1|exact H4].
Defined.

(** C4, as the code has it. For every validated download path: a target
  that does not exist is answered with 404; a directory under a logical
  path other than the root is answered with a redirect (302) to the
  browsing view of that logical path; everything else, the root directory
  included, is handed to http.ServeFile on the full path.  For the root
  directory under the URL [/download/] ServeFile serves the index.html of
  StorageRoot as file content when there is one, and a listing of
  StorageRoot when there is none.  For a regular file ServeFile streams
  the bytes of the file, unless the URL path has a [..] element or ends in
  [/index.html]. *)
Theorem download_dispatch r w :
  Method r = MethodGet ->
  guard (resolve (downloadPath r)) = true ->
  (forall e, Os.Stat (fs w) (resolve (downloadPath r)) = inl e ->
     (handleDownload r w).1 = Error "File not found" StatusNotFound) /\
  (forall t, Os.Stat (fs w) (resolve (downloadPath r)) = inr (Os.Dir t) ->
     downloadPath r <> "/" ->
     (handleDownload r w).1
     = Redirect ("/?path=" +:+ downloadPath r) StatusFound) /\
  (forall t, Os.Stat (fs w) (resolve (downloadPath r)) = inr (Os.Dir t) ->
     downloadPath r = "/" ->
     (handleDownload r w).1 = Http.ServeFile (fs w) r (resolve "/") /\
     (URLPath r = "/download/" ->
      match Os.stat (fs w) (StorageRoot ++ ["index.html"]) with
      | inr (Os.File _ bytes) => (handleDownload r w).1 = ok (FileBytes bytes)
      | inr (Os.Dir _) =>
          exists names, (handleDownload r w).1 = ok (DirList names)
      | inl _ =>
          (handleDownload r w).1
          = ok (DirList (listing (Os.sort_by_name
                                    (Os.entries (fs w) StorageRoot))))
      end)) /\
  (forall t bytes,
     Os.Stat (fs w) (resolve (downloadPath r)) = inr (Os.File t bytes) ->
     (handleDownload r w).1
     = Http.ServeFile (fs w) r (resolve (downloadPath r)) /\
     (containsDotDot (URLPath r) = false ->
      Strings.HasSuffix (URLPath r) "/index.html" = false ->
      (handleDownload r w).1 = ok (FileBytes bytes))).
Proof.
  intros Hm G. rewrite (handleDownload_guard r w Hm), G.
  split; [|split; [|split]].
  - intros e ->. reflexivity.
  - intros t -> Hne. cbn [Os.isDir andb].
    destruct (String.eqb_spec (downloadPath r) "/"); [contradiction|].
    reflexivity.
  - intros t Hs Hroot. rewrite Hs. cbn [Os.isDir andb].
    rewrite Hroot in *. change (negb (String.eqb "/" "/")) with false.
    cbv iota. cbn [fst]. split; [reflexivity|].
    intros Hurl. unfold Http.ServeFile. rewrite Hurl, Hs.
    change (containsDotDot "/download/") with false.
    change (Strings.HasSuffix "/download/" "/index.html") with false.
    change (Strings.HasSuffix "/download/" "/") with true.
    cbv iota. cbn [negb].
    change (Os.key (resolve "/")) with StorageRoot.
    destruct (Os.stat (fs w) (StorageRoot ++ ["index.html"])) as [e|[t'|t' bytes]];
      [reflexivity|eexists; reflexivity|reflexivity].
  - intros t bytes Hs. rewrite Hs. cbn [Os.isDir andb fst].
    split; [reflexivity|].
    intros H1 H2. unfold Http.ServeFile. rewrite H1, H2, Hs.
    reflexivity.
Qed.

Lemma download_dispatch_witness :
  guard (resolve (downloadPath (get "/download/docs/a.txt" []))) = true /\
  (handleDownload (get "/download/docs/a.txt" []) w0).1
  = ok (FileBytes "0123456789").
Proof.
  split; [reflexivity|].
  apply (proj2 (proj2 (proj2 (download_dispatch
                                (get "/download/docs/a.txt" []) w0
                                eq_refl eq_refl))) 2%Z "0123456789");
    reflexivity.
Defined.

(** C4, as stated, fails at the root and at a file called index.html: the
  download of the root directory serves the bytes of the index.html that
  lies in StorageRoot, and the download of that very file is answered with
  a redirect instead of its bytes. *)
Lemma download_root_serves_a_file :
  (guard (resolve (downloadPath (get "/download/" []))) = true /\
   downloadPath (get "/download/" []) = "/" /\
   Os.Stat (fs w0) (resolve (downloadPath (get "/download/" [])))
   = inr (Os.Dir 0) /\
   (handleDownload (get "/download/" []) w0).1
   = ok (FileBytes "<html></html>")) /\
  (guard (resolve (downloadPath (get "/download/index.html" []))) = true /\
   Os.Stat (fs w0) (resolve (downloadPath (get "/download/index.html" [])))
   = inr (Os.File 3 "<html></html>") /\
   (handleDownload (get "/download/index.html" []) w0).1
   = Redirect "./" StatusMovedPermanently).
Proof. repeat split. Qed.

(** C1 (the code does otherwise). An upload whose [path] field is [..]
  passes no guard: the handler makes the directory [.], creates
  [evil.txt] beside the upload directory and writes the file there, and
  answers with success.  The paths it worked on do not pass the guard of
  the other handlers and lie outside StorageRoot. *)
Theorem upload_leaves_storage_root :
  (handleAPIUpload climbing_upload w0).1
  = ok (JSONMessage {| Api.Success := true;
                       Api.Message := "File uploaded successfully to ../evil.txt" |}) /\
  calls (handleAPIUpload climbing_upload w0).2
  = [ {| Op := MkdirAllOp; Target := "." |};
      {| Op := CreateOp; Target := "evil.txt" |};
      {| Op := CopyOp; Target := "evil.txt" |} ] /\
  guard "." = false /\ within_root "." = false /\
  guard "evil.txt" = false /\ within_root "evil.txt" = false /\
  fs w0 !! ["evil.txt"] = None /\
  fs (handleAPIUpload climbing_upload w0).2 !! ["evil.txt"]
  = Some (Os.File 100 "x").
Proof. repeat split. Qed.

(** C6 (the code does otherwise). The logical path [/..cache] stays
  within StorageRoot: its full path is the lexical join
  [uploads/..cache], and the relative path from the upload directory,
  [..cache], does not begin with a parent-directory segment.  The guard
  tests the first two characters of the relative path and not its first
  segment, so the listing refuses the path. *)
Theorem dotted_name_is_refused :
  resolve "/..cache" = "uploads/..cache" /\
  within_root (resolve "/..cache") = true /\
  Filepath.Rel uploadPath (resolve "/..cache") = Some "..cache" /\
  parent_first "..cache" = false /\
  handleAPIFiles (get "/api/files" [("path", "/..cache")]) w0
  = (sendJSONError "Invalid path" StatusBadRequest, w0).
Proof. repeat split. Qed.

(** What does hold for C6: a path the guard lets through is worked on as
  the lexical join of the upload directory and the cleaned logical path,
  and a missing or empty [path] parameter stands for the root. *)
Lemma accepted_path_is_the_join r w :
  guard (resolve (listPath r)) = true ->
  resolve (listPath r)
  = Filepath.Join [uploadPath; Filepath.Clean (listPath r)] /\
  calls (handleAPIFiles r w).2
  = calls w ++ [{| Op := ReadDirOp; Target := resolve (listPath r) |}].
Proof.
  intros G. split; [reflexivity|].
  rewrite handleAPIFiles_guard, G.
  destruct (Os.ReadDir (fs w) (resolve (listPath r))); reflexivity.
Qed.

Lemma empty_path_is_root r :
  QueryGet r "path" = "" -> listPath r = "/" /\ resolve (listPath r) = "uploads".
Proof. unfold listPath. intros ->. split; reflexivity. Qed.

(** C8 (the code does otherwise). The listing handler never looks at
  the verb: whatever the method of the request, its answer and its file
  system calls are those of the GET request.  A POST to /api/files is
  answered 200 with the listing, after a ReadDir. *)
Theorem listing_ignores_the_verb :
  (forall r m w,
     handleAPIFiles {| Method := m; URLPath := URLPath r;
                       Query := Query r; Body := Body r |} w
     = handleAPIFiles r w) /\
  Method (post "/api/files" NoBody) <> verb APIFiles /\
  Status (handleAPIFiles (post "/api/files" NoBody) w0).1 = StatusOK /\
  calls (handleAPIFiles (post "/api/files" NoBody) w0).2
  = [{| Op := ReadDirOp; Target := "uploads" |}].
Proof.
  split; [reflexivity|]. split; [discriminate|]. split; reflexivity.
Qed.

Lemma MaxUploadSize_eq : Z.shiftl 32 20 = MaxUploadSize.
Proof. reflexivity. Qed.

Lemma length_fill n : String.length (fill n) = n.
Proof. induction n; simpl; congruence. Qed.

(** The argument of ParseMultipartForm says how much of the file parts is
  kept in memory; a larger part goes to a temporary file and the form is
  parsed all the same.  So an upload is written whatever its size. *)
Lemma upload_of_any_size data :
  ParseMultipartForm (upload_of data) (Z.shiftl 32 20)
  = Some {| Value := [];
            File := [("file", {| Filename := "big.bin";
                                 Size := bytes data;
                                 content := data;
                                 tmpfile := (Z.shiftl 32 20 <? bytes data)%Z |})] |} /\
  (handleAPIUpload (upload_of data) w0).1
  = ok (JSONMessage {| Api.Success := true;
                       Api.Message := "File uploaded successfully to /big.bin" |}) /\
  fs (handleAPIUpload (upload_of data) w0).2 !! ["uploads"; "big.bin"]
  = Some (Os.File 100 data).
Proof. repeat split. Qed.

(** C9 (the code does otherwise). There is an upload larger than
  MaxUploadSize, 32 MiB, that is not rejected: the handler answers with
  success and the whole payload is written under StorageRoot. *)
Theorem upload_over_the_ceiling_is_written :
  exists data,
    (MaxUploadSize < bytes data)%Z /\
    (handleAPIUpload (upload_of data) w0).1
    = ok (JSONMessage {| Api.Success := true;
                         Api.Message := "File uploaded successfully to /big.bin" |}) /\
    fs (handleAPIUpload (upload_of data) w0).2 !! ["uploads"; "big.bin"]
    = Some (Os.File 100 data).
Proof.
  exists (fill (Z.to_nat (MaxUploadSize + 1))). split.
  - unfold bytes. rewrite length_fill, Z2Nat.id.
    + apply Z.lt_succ_diag_r.
    + discriminate.
  - apply upload_of_any_size.
Qed.

End Claims.

(** ** Rooted logical paths *)

Section Rooted.
Import Strings Filepath Confinement Server.
Local Open Scope list_scope.

Lemma real_uploads : real "uploads" = true.
Proof. reflexivity. Qed.

(** Under a rooted path the buffer of [Clean] only ever holds proper
  elements. *)
Lemma clean_loop_rooted elems : forall out,
  Forall (fun e => has_slash e = false) elems ->
  Forall (fun e => real e = true) out ->
  Forall (fun e => real e = true) (clean_loop true elems out 0).
Proof.
  induction elems as [|e elems IH]; intros out Hs Ho; simpl; [assumption|].
  inversion Hs as [|? ? He Hes]; subst.
  destruct (String.eqb e "") eqn:E1; [apply IH; assumption|].
  destruct (String.eqb e ".") eqn:E2; [apply IH; assumption|].
  destruct (String.eqb e "..") eqn:E3.
  - destruct out as [|x out]; simpl.
    + apply IH; assumption.
    + inversion Ho; subst. apply IH; assumption.
  - apply IH; [assumption|]. constructor; [|assumption].
    unfold real. rewrite E1, E2, E3, He. reflexivity.
Qed.

Lemma Forall_real_rev l :
  Forall (fun e => real e = true) l -> Forall (fun e => real e = true) (rev l).
Proof.
  intros H. apply Forall_forall. intros x Hx. rewrite Forall_forall in H.
  apply H. apply list_elem_of_In. apply list_elem_of_In in Hx.
  apply in_rev. exact Hx.
Qed.

Lemma rooted_nonempty p : rooted p = true -> String.eqb p "" = false.
Proof. destruct p; [discriminate|reflexivity]. Qed.

Lemma clean_elems_rooted p :
  rooted p = true -> Forall (fun e => real e = true) (clean_elems p).
Proof.
  intros H. unfold clean_elems. rewrite H. apply Forall_real_rev.
  apply clean_loop_rooted; [apply Split_no_slash|constructor].
Qed.

(** A rooted path cleans to a slash and proper elements: no [.], no [..],
  no doubled slash is left. *)
Lemma Clean_rooted p :
  rooted p = true -> Clean p = "/" +:+ Strings.Join (clean_elems p).
Proof.
  intros H. unfold Clean. rewrite (rooted_nonempty _ H), H. reflexivity.
Qed.

(** A proper element put behind the others is copied behind them. *)
Lemma clean_loop_snoc isRooted fn l : forall out dd,
  real fn = true ->
  clean_loop isRooted (l ++ [fn]) out dd = fn :: clean_loop isRooted l out dd.
Proof.
  induction l as [|e l IH]; intros out dd Hf; simpl.
  - destruct (real_inv _ Hf) as (-> & -> & -> & _). reflexivity.
  - destruct (String.eqb e ""); [apply IH, Hf|].
    destruct (String.eqb e "."); [apply IH, Hf|].
    destruct (String.eqb e "..").
    + destruct (dd <? length out)%nat; [apply IH, Hf|].
      destruct isRooted; apply IH, Hf.
    + apply IH, Hf.
Qed.

Lemma clean_loop_Join_reals isRooted reals out dd :
  Forall (fun e => real e = true) reals ->
  clean_loop isRooted (Split (Strings.Join reals)) out dd = rev reals ++ out.
Proof.
  intros H. destruct reals as [|e reals]; [reflexivity|].
  rewrite Split_Join.
  - apply clean_loop_reals, H.
  - discriminate.
  - eapply Forall_impl; [exact H|]. intros x Hx. apply (real_inv _ Hx).
Qed.

(** What [Clean] gives for the upload directory with [t] joined on, in
  terms of the loop. *)
Lemma Clean_under_root_elems t :
  Clean ("./uploads/" +:+ t)
  = render (rev (clean_loop false (Split t) ["uploads"] 0)).
Proof.
  unfold Clean. change (String.eqb ("./uploads/" +:+ t) "") with false.
  change (rooted ("./uploads/" +:+ t)) with false. cbv iota.
  assert (Hc : clean_elems ("./uploads/" +:+ t)
               = rev (clean_loop false (Split t) ["uploads"] 0)).
  { unfold clean_elems. change (rooted ("./uploads/" +:+ t)) with false.
    change ("./uploads/" +:+ t)
      with ("." +:+ String "/" ("uploads" +:+ String "/" t)).
    rewrite !Split_app_slash. reflexivity. }
  rewrite Hc. destruct (rev (clean_loop false (Split t) ["uploads"] 0));
    reflexivity.
Qed.

Lemma clean_form_under_root reals :
  Forall (fun e => real e = true) reals -> clean_form ("uploads" :: reals).
Proof.
  intros H. exists 0, ("uploads" :: reals). split; [reflexivity|].
  constructor; [reflexivity|exact H].
Qed.

(** The full path of a rooted logical path: the upload directory followed
  by the elements of the cleaned logical path. *)
Lemma resolve_rooted p :
  rooted p = true -> resolve p = render ("uploads" :: clean_elems p).
Proof.
  intros H. rewrite resolve_eq, (Clean_rooted _ H), Clean_under_root_elems.
  change ("/" +:+ Strings.Join (clean_elems p))
    with ("" +:+ String "/" (Strings.Join (clean_elems p))).
  rewrite Split_app_slash.
  change (clean_loop false (Split "" ++ Split (Strings.Join (clean_elems p)))
                     ["uploads"] 0)
    with (clean_loop false (Split (Strings.Join (clean_elems p))) ["uploads"] 0).
  rewrite clean_loop_Join_reals by (apply clean_elems_rooted, H).
  rewrite rev_app_distr, rev_involutive. reflexivity.
Qed.

(** X1. A logical path that begins with a slash never leaves StorageRoot,
  whatever [.] and [..] elements it holds: its full path addresses the
  upload directory or a node below it. *)
Theorem rooted_path_stays_inside p :
  rooted p = true -> within_root (resolve p) = true.
Proof.
  intros H. rewrite (resolve_rooted _ H).
  rewrite within_root_render; [reflexivity|].
  apply clean_form_under_root, clean_elems_rooted, H.
Qed.

Lemma rooted_path_stays_inside_witness :
  rooted "/../../etc/./passwd/.." = true /\
  within_root (resolve "/../../etc/./passwd/..") = true.
Proof.
  split; [reflexivity|].
  apply (rooted_path_stays_inside "/../../etc/./passwd/.."). reflexivity.
Defined.

(** X2. The guard lets a rooted logical path through exactly when its
  cleaned form does not begin with [/..], that is, when the first name
  below the root does not begin with two dots. *)
Theorem rooted_path_acceptance p :
  rooted p = true ->
  guard (resolve p) = negb (HasPrefix (Clean p) "/..").
Proof.
  intros H. rewrite (resolve_rooted _ H), (Clean_rooted _ H).
  rewrite guard_render
    by (apply clean_form_under_root, clean_elems_rooted, H).
  unfold HasPrefix.
  change (String.prefix "/.." ("/" +:+ Strings.Join (clean_elems p)))
    with (String.prefix ".." (Strings.Join (clean_elems p))).
  destruct (clean_elems p) as [|t rest]; [reflexivity|].
  change (String.prefix ".." (Strings.Join (t :: rest)))
    with (HasPrefix (Strings.Join (t :: rest)) "..").
  rewrite HasPrefix_Join. reflexivity.
Qed.

Lemma rooted_path_acceptance_witness :
  rooted "/a/../..b/c" = true /\ guard (resolve "/a/../..b/c") = false.
Proof.
  split; [reflexivity|].
  rewrite (rooted_path_acceptance "/a/../..b/c"); reflexivity.
Defined.

Lemma append_assoc (a b c : string) : (a +:+ b) +:+ c = a +:+ (b +:+ c).
Proof.
  induction a as [|ch a IH]; [reflexivity|].
  change ((String ch a +:+ b) +:+ c) with (String ch ((a +:+ b) +:+ c)).
  rewrite IH. reflexivity.
Qed.

Lemma Join_snoc es fn :
  es <> [] -> Strings.Join (es ++ [fn]) = Strings.Join es +:+ String "/" fn.
Proof.
  induction es as [|e es IH]; [congruence|]. intros _.
  destruct es as [|e' es']; [reflexivity|].
  change (Strings.Join ((e :: e' :: es') ++ [fn]))
    with (e +:+ String "/" (Strings.Join ((e' :: es') ++ [fn]))).
  rewrite IH by discriminate.
  change (Strings.Join (e :: e' :: es'))
    with (e +:+ String "/" (Strings.Join (e' :: es'))).
  rewrite append_assoc. reflexivity.
Qed.

Lemma clean_form_snoc es fn :
  clean_form es -> real fn = true -> clean_form (es ++ [fn]).
Proof.
  intros (n & reals & -> & Hr) Hf. exists n, (reals ++ [fn]). split.
  - rewrite app_assoc. reflexivity.
  - apply Forall_app. split; [exact Hr|]. constructor; [exact Hf|constructor].
Qed.

(** Joining a plain name onto a cleaned relative path puts it behind the
  elements of the path. *)
Lemma Join_render_real es fn :
  clean_form es -> real fn = true ->
  Filepath.Join [render es; fn] = render (es ++ [fn]).
Proof.
  intros H Hf. destruct (render_props _ H) as [Hne Hr].
  cbn [Filepath.Join]. rewrite Hne.
  destruct es as [|e es].
  - destruct (real_inv _ Hf) as (E1 & E2 & E3 & E4).
    change (Strings.Join [render []; fn]) with ("." +:+ String "/" fn).
    unfold Clean. change (String.eqb ("." +:+ String "/" fn) "") with false.
    change (rooted ("." +:+ String "/" fn)) with false. cbv iota.
    unfold clean_elems. change (rooted ("." +:+ String "/" fn)) with false.
    rewrite Split_app_slash, (Split_slash_free _ E4).
    change (clean_loop false (Split "." ++ [fn]) [] 0)
      with (clean_loop false [fn] [] 0).
    cbn [clean_loop]. rewrite E1, E2, E3. reflexivity.
  - change (Strings.Join [render (e :: es); fn])
      with (Strings.Join (e :: es) +:+ String "/" fn).
    rewrite <- Join_snoc by discriminate.
    change (Strings.Join ((e :: es) ++ [fn])) with (render ((e :: es) ++ [fn])).
    apply Clean_render, clean_form_snoc; assumption.
Qed.

(** The logical path of a child of a rooted logical directory. *)
Lemma Join_rooted_real p fn :
  rooted p = true -> real fn = true ->
  Filepath.Join [p; fn] = "/" +:+ Strings.Join (clean_elems p ++ [fn]).
Proof.
  intros H Hf. cbn [Filepath.Join]. rewrite (rooted_nonempty _ H).
  change (Strings.Join [p; fn]) with (p +:+ String "/" fn).
  assert (Hr : rooted (p +:+ String "/" fn) = true).
  { destruct p; [discriminate|exact H]. }
  rewrite (Clean_rooted _ Hr). f_equal. f_equal.
  unfold clean_elems. rewrite Hr, H, Split_app_slash.
  destruct (real_inv _ Hf) as (_ & _ & _ & E4).
  rewrite (Split_slash_free _ E4), clean_loop_snoc by exact Hf.
  reflexivity.
Qed.

Lemma clean_elems_rooted_Join reals :
  Forall (fun e => real e = true) reals ->
  clean_elems ("/" +:+ Strings.Join reals) = reals.
Proof.
  intros H. unfold clean_elems.
  change (rooted ("/" +:+ Strings.Join reals)) with true.
  change ("/" +:+ Strings.Join reals)
    with ("" +:+ String "/" (Strings.Join reals)).
  rewrite Split_app_slash.
  change (clean_loop true (Split "" ++ Split (Strings.Join reals)) [] 0)
    with (clean_loop true (Split (Strings.Join reals)) [] 0).
  rewrite clean_loop_Join_reals by exact H.
  rewrite app_nil_r, rev_involutive. reflexivity.
Qed.

Lemma resolve_child p fn :
  rooted p = true -> real fn = true ->
  resolve (Filepath.Join [p; fn]) = Filepath.Join [resolve p; fn].
Proof.
  intros H Hf.
  pose proof (clean_elems_rooted _ H) as Hr.
  assert (Hr' : Forall (fun e => real e = true) (clean_elems p ++ [fn])).
  { apply Forall_app. split; [exact Hr|]. constructor; [exact Hf|constructor]. }
  rewrite (Join_rooted_real _ _ H Hf).
  rewrite (resolve_rooted ("/" +:+ Strings.Join (clean_elems p ++ [fn])))
    by reflexivity.
  rewrite (clean_elems_rooted_Join _ Hr').
  rewrite (resolve_rooted _ H).
  rewrite (Join_render_real _ _ (clean_form_under_root _ Hr) Hf).
  reflexivity.
Qed.

(** X3. For a rooted logical directory and a plain name, the logical path
  that the listing and the upload report for the child,
  [filepath.Join(dirPath, name)], resolves to the path the handlers work
  on for it, [filepath.Join(fullPath, name)]. *)
Theorem child_path_resolves p fn :
  rooted p = true -> real fn = true ->
  resolve (Filepath.Join [p; fn]) = Filepath.Join [resolve p; fn].
Proof. apply resolve_child. Qed.

Lemma child_path_resolves_witness :
  rooted "/docs/../docs" = true /\ real "a.txt" = true /\
  resolve (Filepath.Join ["/docs/../docs"; "a.txt"]) = "uploads/docs/a.txt".
Proof.
  split; [reflexivity|]. split; [reflexivity|].
  rewrite (child_path_resolves "/docs/../docs" "a.txt"); reflexivity.
Defined.

End Rooted.

(** ** What the file system calls keep and make *)

Section Keeping.
Import Os Effects.
Local Open Scope list_scope.

Implicit Types (fs : gmap (list string) node) (k dir : list string).

Lemma keeps_refl fs : keeps fs fs.
Proof. intros k n H. exists n. auto. Qed.

Lemma keeps_trans fs1 fs2 fs3 : keeps fs1 fs2 -> keeps fs2 fs3 -> keeps fs1 fs3.
Proof.
  intros H12 H23 k n H. destruct (H12 k n H) as (n2 & E2 & D2 & F2).
  destruct (H23 k n2 E2) as (n3 & E3 & D3 & F3).
  exists n3. split; [exact E3|]. split; [congruence|].
  intros Hf. rewrite F3 by congruence. apply F2, Hf.
Qed.

(** Stamping a directory and adding a node under a free name keeps all. *)
Lemma keeps_insert_free fs p k t now v :
  fs !! p = Some (Dir t) -> fs !! k = None ->
  keeps fs (<[k := v]> (<[p := Dir now]> fs)).
Proof.
  intros Hp Hk x n Hx.
  destruct (decide (x = k)) as [->|Nk]; [congruence|].
  rewrite lookup_insert_ne by congruence.
  destruct (decide (x = p)) as [->|Np].
  - rewrite lookup_insert_eq. exists (Dir now).
    rewrite Hp in Hx. inversion Hx; subst. split; [reflexivity|].
    split; [reflexivity|discriminate].
  - rewrite lookup_insert_ne by congruence. exists n. auto.
Qed.

Lemma mkdir_keeps fs now k fs' : mkdir fs now k = inr fs' -> keeps fs fs'.
Proof.
  unfold mkdir. destruct (stat fs (removelast k)) as [|[t|t c]] eqn:Hp;
    try discriminate.
  destruct (fs !! k) eqn:Hk; [discriminate|].
  intros E. inversion E; subst.
  eapply keeps_insert_free; [apply stat_lookup, Hp|exact Hk].
Qed.

Lemma finish_keeps now k fs1 :
  keeps fs1 (match mkdir fs1 now k with
             | inr fs2 => (fs2, None)
             | inl e => match stat fs1 k with
                        | inr (Dir _) => (fs1, None)
                        | _ => (fs1, Some e)
                        end
             end).1.
Proof.
  destruct (mkdir fs1 now k) as [e|fs2] eqn:Hm.
  - destruct (stat fs1 k) as [|[|]]; apply keeps_refl.
  - eapply mkdir_keeps, Hm.
Qed.

(** [MkdirAll] only adds directories: whatever it answers, no node is
  gone and no file is touched. *)
Lemma mkdirAll_keeps now rk : forall fs, keeps fs (mkdirAll fs now rk).1.
Proof.
  induction rk as [|e rp IH]; intros fs; cbn [mkdirAll].
  - destruct (stat fs (rev [])) as [|n] eqn:Hs.
    + destruct (mkdir fs now (rev [])) eqn:Hm; [apply keeps_refl|].
      eapply mkdir_keeps, Hm.
    + destruct (isDir n); apply keeps_refl.
  - destruct (stat fs (rev (e :: rp))) as [|n] eqn:Hs.
    + destruct rp as [|e' rp'].
      * destruct (mkdir fs now (rev [e])) eqn:Hm; [apply keeps_refl|].
        eapply mkdir_keeps, Hm.
      * pose proof (IH fs) as Hrec.
        destruct (mkdirAll fs now (e' :: rp')) as [fs1 [err|]]; [exact Hrec|].
        eapply keeps_trans; [exact Hrec|]. apply finish_keeps.
    + destruct (isDir n); apply keeps_refl.
Qed.

Lemma MkdirAll_keeps fs now path : keeps fs (MkdirAll fs now path).1.
Proof. apply mkdirAll_keeps. Qed.

(** Below a file nothing is found. *)
Lemma stat_below_file fs p t c q :
  stat fs p = inr (File t c) -> q <> [] -> stat fs (p ++ q) = inl ENOTDIR.
Proof.
  intros Hp. induction q as [|e q IH] using rev_ind; [congruence|]. intros _.
  rewrite app_assoc, stat_snoc. destruct q as [|e' q'].
  - rewrite app_nil_r, Hp. reflexivity.
  - rewrite IH by discriminate. reflexivity.
Qed.

(** With a file in the way [MkdirAll] fails and makes nothing. *)
Lemma mkdirAll_blocked now rk : forall fs,
  file_in_the_way fs (rev rk) -> mkdirAll fs now rk = (fs, Some ENOTDIR).
Proof.
  induction rk as [|e rp IH]; intros fs (p & t & c & [q Hq] & Hp).
  - cbn [rev] in Hq. symmetry in Hq. apply app_eq_nil in Hq.
    destruct Hq as [-> ->]. cbn [mkdirAll rev]. rewrite Hp. reflexivity.
  - destruct q as [|x q _] using rev_ind.
    + rewrite app_nil_r in Hq. cbn [mkdirAll]. rewrite Hq, Hp. reflexivity.
    + cbn [rev] in Hq. rewrite app_assoc in Hq.
      apply app_inj_tail in Hq. destruct Hq as [Hrp <-].
      assert (Hs : stat fs (rev (e :: rp)) = inl ENOTDIR).
      { cbn [rev]. rewrite Hrp, <- app_assoc.
        apply (stat_below_file _ _ _ _ _ Hp).
        destruct q; discriminate. }
      cbn [mkdirAll]. rewrite Hs.
      destruct rp as [|e' rp'].
      * cbn [rev] in Hrp. symmetry in Hrp. apply app_eq_nil in Hrp.
        destruct Hrp as [-> ->].
        unfold mkdir. cbn [rev app removelast] in *. rewrite Hp.
        reflexivity.
      * rewrite (IH fs); [reflexivity|].
        exists p, t, c. split; [exists q; exact Hrp|exact Hp].
Qed.

(** A file that was created and written is there, with what was written. *)
Lemma Create_Write_ok fs now name fs1 content :
  Create fs now name = inr fs1 ->
  Stat (Write fs1 now name content) name = inr (File now content).
Proof.
  unfold Create, Write, Stat. destruct (key name) as [|e p _] using rev_ind.
  - cbn [removelast]. rewrite stat_nil.
    destruct (fs !! []) as [[|]|]; discriminate.
  - rewrite removelast_snoc.
    destruct (stat fs p) as [|[t|t c]] eqn:Hp; try discriminate.
    destruct (fs !! (p ++ [e])) as [[|]|] eqn:Hk; [discriminate| |];
      intros E; inversion E; subst; clear E;
      rewrite stat_snoc, !stat_insert_other by apply snoc_not_prefix.
    + rewrite Hp. cbn [isDir]. rewrite lookup_insert_eq. reflexivity.
    + rewrite (stat_insert_dir _ _ _ now Hp). cbn [isDir].
      rewrite lookup_insert_eq. reflexivity.
Qed.

(** Creating and writing a file keeps every other node; no directory is
  turned into a file. *)
Lemma Create_Write_keeps fs now name fs1 content k n :
  Create fs now name = inr fs1 ->
  fs !! k = Some n ->
  exists n', Write fs1 now name content !! k = Some n' /\
             isDir n' = isDir n /\
             (isDir n = false -> k <> key name -> n' = n).
Proof.
  unfold Create, Write.
  destruct (stat fs (removelast (key name))) as [|[t|t c]] eqn:Hp;
    try discriminate.
  apply stat_lookup in Hp.
  destruct (fs !! key name) as [[|t' c']|] eqn:Hk; [discriminate| |];
    intros E Hx; inversion E; subst; clear E.
  - destruct (decide (k = key name)) as [->|Nk].
    + rewrite lookup_insert_eq. rewrite Hk in Hx. inversion Hx; subst.
      exists (File now content). split; [reflexivity|].
      split; [reflexivity|congruence].
    + rewrite !lookup_insert_ne by congruence. exists n. auto.
  - destruct (decide (k = key name)) as [->|Nk]; [congruence|].
    rewrite !lookup_insert_ne by congruence.
    destruct (decide (k = removelast (key name))) as [->|Np].
    + rewrite lookup_insert_eq. rewrite Hp in Hx. inversion Hx; subst.
      exists (Dir now). split; [reflexivity|]. split; [reflexivity|discriminate].
    + rewrite lookup_insert_ne by congruence. exists n. auto.
Qed.

End Keeping.

(** ** What the handlers do to the file system *)

Section HandlerEffects.
Import Http Server Confinement Samples Effects.
Local Open Scope list_scope.

(** X4. The index page, the listing and the download never change the
  file system, whatever the request. *)
Theorem reading_handlers_change_nothing r w :
  fs (handleIndex r w).2 = fs w /\
  fs (handleAPIFiles r w).2 = fs w /\
  fs (handleDownload r w).2 = fs w.
Proof.
  split; [|split].
  - unfold handleIndex. destruct (negb (String.eqb (Method r) MethodGet));
      reflexivity.
  - rewrite handleAPIFiles_guard.
    destruct (guard (resolve (listPath r))); [|reflexivity].
    destruct (Os.ReadDir (fs w) (resolve (listPath r))); reflexivity.
  - destruct (String.eqb_spec (Method r) MethodGet) as [Hm|Hm].
    + rewrite (handleDownload_guard r w Hm).
      destruct (guard (resolve (downloadPath r))); [|reflexivity].
      destruct (Os.Stat (fs w) (resolve (downloadPath r))) as [e|n];
        [reflexivity|].
      destruct (Os.isDir n && negb (String.eqb (downloadPath r) "/"));
        reflexivity.
    + unfold handleDownload.
      destruct (String.eqb_spec (Method r) MethodGet); [contradiction|].
      reflexivity.
Qed.

(** The mkdir handler in full: what stops it before the guard. *)
Lemma handleAPIMkdir_cases r w :
  (handleAPIMkdir r w).2 = w \/
  exists reqPath reqName,
    Method r = MethodPost /\ Body r = JSONObject reqPath reqName /\
    reqName <> "" /\ guard (resolve_in reqPath reqName) = true.
Proof.
  destruct (String.eqb_spec (Method r) MethodPost) as [Hm|Hm].
  2:{ left. unfold handleAPIMkdir.
      destruct (String.eqb_spec (Method r) MethodPost); [contradiction|].
      reflexivity. }
  destruct (Body r) as [|reqPath reqName| |] eqn:Hb;
    try (left; unfold handleAPIMkdir, DecodeJSON; rewrite Hm, Hb; reflexivity).
  destruct (String.eqb_spec reqName "") as [->|Hn].
  { left. unfold handleAPIMkdir, DecodeJSON. rewrite Hm, Hb. reflexivity. }
  destruct (guard (resolve_in reqPath reqName)) eqn:G.
  - right. exists reqPath, reqName. auto.
  - left. rewrite (handleAPIMkdir_guard r w reqPath reqName Hm Hb Hn), G.
    reflexivity.
Qed.

Lemma made_directory_stat r w reqPath reqName :
  Body r = JSONObject reqPath reqName ->
  Status (handleAPIMkdir r w).1 = StatusOK ->
  guarded (resolve_in reqPath reqName) /\
  exists t, Os.Stat (fs (handleAPIMkdir r w).2) (resolve_in reqPath reqName)
            = inr (Os.Dir t).
Proof.
  intros Hb.
  destruct (String.eqb_spec (Method r) MethodPost) as [Hm|Hm].
  2:{ unfold handleAPIMkdir.
      destruct (String.eqb_spec (Method r) MethodPost); [contradiction|].
      discriminate. }
  destruct (String.eqb_spec reqName "") as [->|Hn].
  { unfold handleAPIMkdir, DecodeJSON. rewrite Hm, Hb. discriminate. }
  rewrite (handleAPIMkdir_guard r w reqPath reqName Hm Hb Hn).
  destruct (guard (resolve_in reqPath reqName)) eqn:G; [|discriminate].
  destruct (Os.MkdirAll (fs w) (now w) (resolve_in reqPath reqName))
    as [fs' [e|]] eqn:H1; [discriminate|].
  intros _. split; [apply guarded_resolve_in, G|].
  apply (MkdirAll_ok _ _ _ _ H1).
Qed.

(** X5. When the mkdir handler answers 200 the directory it was asked
  for is there: its full path has passed the guard and is a directory in
  the file system the handler leaves. *)
Theorem mkdir_makes_the_directory r w reqPath reqName :
  Body r = JSONObject reqPath reqName ->
  Status (handleAPIMkdir r w).1 = StatusOK ->
  guarded (resolve_in reqPath reqName) /\
  exists t, Os.Stat (fs (handleAPIMkdir r w).2) (resolve_in reqPath reqName)
            = inr (Os.Dir t).
Proof. apply made_directory_stat. Qed.

Lemma mkdir_makes_the_directory_witness :
  Os.Stat (fs w0) "uploads/a/b" = inl Os.ENOENT /\
  exists t,
    Os.Stat (fs (handleAPIMkdir (post "/api/mkdir" (JSONObject "/a" "b")) w0).2)
            "uploads/a/b" = inr (Os.Dir t).
Proof.
  split; [reflexivity|].
  apply (mkdir_makes_the_directory
           (post "/api/mkdir" (JSONObject "/a" "b")) w0 "/a" "b");
    reflexivity.
Defined.

(** X6. The mkdir handler destroys nothing: whatever the request and
  whatever its answer, every node that was there is still there, a
  directory is still a directory, and every file is as it was. *)
Theorem mkdir_keeps_everything r w :
  keeps (fs w) (fs (handleAPIMkdir r w).2).
Proof.
  destruct (handleAPIMkdir_cases r w)
    as [->|(reqPath & reqName & Hm & Hb & Hn & G)]; [apply keeps_refl|].
  rewrite (handleAPIMkdir_guard r w reqPath reqName Hm Hb Hn), G.
  pose proof (MkdirAll_keeps (fs w) (now w) (resolve_in reqPath reqName)) as K.
  destruct (Os.MkdirAll (fs w) (now w) (resolve_in reqPath reqName))
    as [fs' err]. exact K.
Qed.

(** X7. When a regular file stands at the full path of a mkdir request or
  above it, the handler answers 500 "Failed to create directory" and the
  file system is as before: no part of the chain is made. *)
Theorem mkdir_blocked_by_a_file r w reqPath reqName :
  Method r = MethodPost ->
  Body r = JSONObject reqPath reqName ->
  reqName <> "" ->
  guard (resolve_in reqPath reqName) = true ->
  file_in_the_way (fs w) (Os.key (resolve_in reqPath reqName)) ->
  (handleAPIMkdir r w).1
  = sendJSONError "Failed to create directory" StatusInternalServerError /\
  fs (handleAPIMkdir r w).2 = fs w.
Proof.
  intros Hm Hb Hn G Hf.
  rewrite (handleAPIMkdir_guard r w reqPath reqName Hm Hb Hn), G.
  unfold Os.MkdirAll. rewrite mkdirAll_blocked.
  - split; reflexivity.
  - rewrite rev_involutive. exact Hf.
Qed.

Lemma mkdir_blocked_by_a_file_witness :
  (handleAPIMkdir (post "/api/mkdir" (JSONObject "/docs/a.txt/deep" "x")) w0).1
  = sendJSONError "Failed to create directory" StatusInternalServerError /\
  fs (handleAPIMkdir (post "/api/mkdir" (JSONObject "/docs/a.txt/deep" "x")) w0).2
  = fs w0.
Proof.
  apply (mkdir_blocked_by_a_file
           (post "/api/mkdir" (JSONObject "/docs/a.txt/deep" "x")) w0
           "/docs/a.txt/deep" "x"); try reflexivity; [discriminate|].
  exists ["uploads"; "docs"; "a.txt"], 2%Z, "0123456789".
  split; [exists ["deep"; "x"]; reflexivity|reflexivity].
Defined.

(** The upload handler past its request checks, call by call. *)
Lemma handleAPIUpload_steps r w form :
  Method r = MethodPost ->
  ParseMultipartForm r (Z.shiftl 32 20) = Some form ->
  handleAPIUpload r w =
  let fullDirPath := resolve (uploadDir r form) in
  let (fs1, err) := Os.MkdirAll (fs w) (now w) fullDirPath in
  let w1 := record MkdirAllOp fullDirPath fs1 w in
  match err with
  | Some _ =>
      (sendJSONError "Failed to create directory" StatusInternalServerError, w1)
  | None =>
      match FormFile form "file" with
      | None =>
          (sendJSONError "Failed to get file from form" StatusBadRequest, w1)
      | Some handler =>
          let fullPath := Filepath.Join [fullDirPath; Filename handler] in
          match Os.Create fs1 (now w) fullPath with
          | inl _ =>
              (sendJSONError "Failed to create file on server"
                             StatusInternalServerError,
               record CreateOp fullPath fs1 w1)
          | inr fs2 =>
              (ok (JSONMessage
                     {| Api.Success := true;
                        Api.Message :=
                          "File uploaded successfully to " +:+
                          Filepath.Join [uploadDir r form; Filename handler] |}),
               record CopyOp fullPath
                 (Os.Write fs2 (now w) fullPath (content handler))
                 (record CreateOp fullPath fs2 w1))
          end
      end
  end.
Proof.
  intros Hm Hp. rewrite (handleAPIUpload_start r w form Hm Hp). cbv zeta.
  destruct (Os.MkdirAll (fs w) (now w) (resolve (uploadDir r form)))
    as [fs1 [e|]]; [reflexivity|].
  destruct (FormFile form "file") as [handler|]; [|reflexivity].
  unfold bind, ret, Create, Copy. cbn [fs now record].
  destruct (Os.Create fs1 (now w)
              (Filepath.Join [resolve (uploadDir r form); Filename handler]));
    reflexivity.
Qed.

Lemma uploaded_file_stat r w form handler :
  Method r = MethodPost ->
  ParseMultipartForm r (Z.shiftl 32 20) = Some form ->
  FormFile form "file" = Some handler ->
  Status (handleAPIUpload r w).1 = StatusOK ->
  Os.Stat (fs (handleAPIUpload r w).2)
          (Filepath.Join [resolve (uploadDir r form); Filename handler])
  = inr (Os.File (now w) (content handler)).
Proof.
  intros Hm Hp Hf. rewrite (handleAPIUpload_steps r w form Hm Hp). cbv zeta.
  destruct (Os.MkdirAll (fs w) (now w) (resolve (uploadDir r form)))
    as [fs1 [e|]]; [discriminate|].
  rewrite Hf.
  destruct (Os.Create fs1 (now w)
              (Filepath.Join [resolve (uploadDir r form); Filename handler]))
    as [e|fs2] eqn:Hc; [discriminate|].
  intros _. cbn [snd fs record]. apply (Create_Write_ok _ _ _ _ _ Hc).
Qed.

(** X8. When the upload handler answers 200 the file is there: at the
  full path formed from the path field and the file name stands a regular
  file that holds exactly the bytes of the uploaded part, whatever stood
  there before. *)
Theorem upload_stores_the_file r w form handler :
  Method r = MethodPost ->
  ParseMultipartForm r (Z.shiftl 32 20) = Some form ->
  FormFile form "file" = Some handler ->
  Status (handleAPIUpload r w).1 = StatusOK ->
  Os.Stat (fs (handleAPIUpload r w).2)
          (Filepath.Join [resolve (uploadDir r form); Filename handler])
  = inr (Os.File (now w) (content handler)).
Proof. apply uploaded_file_stat. Qed.

Lemma upload_stores_the_file_witness :
  Os.Stat (fs w0) "uploads/docs/a.txt" = inr (Os.File 2 "0123456789") /\
  Os.Stat (fs (handleAPIUpload
                 (post "/api/upload"
                    (Multipart [value "path" "/docs"; file "file" "a.txt" "new"]))
                 w0).2)
          "uploads/docs/a.txt" = inr (Os.File 100 "new").
Proof.
  split; [reflexivity|].
  apply (upload_stores_the_file
           (post "/api/upload"
              (Multipart [value "path" "/docs"; file "file" "a.txt" "new"]))
           w0
           {| Value := [("path", "/docs")];
              File := [("file", {| Filename := "a.txt"; Size := 3;
                                   content := "new"; tmpfile := false |})] |}
           {| Filename := "a.txt"; Size := 3; content := "new";
              tmpfile := false |}); reflexivity.
Defined.

(** X9. An upload changes no other file: whatever the request and its
  answer, every node that was there is still there and of the same kind,
  and a file is as it was unless it stands at the path the upload writes
  to. *)
Theorem upload_keeps_other_files r w :
  (forall k n, fs w !! k = Some n ->
     exists n', fs (handleAPIUpload r w).2 !! k = Some n' /\
                Os.isDir n' = Os.isDir n) /\
  (forall k t c, fs w !! k = Some (Os.File t c) ->
     fs (handleAPIUpload r w).2 !! k = Some (Os.File t c) \/
     exists form handler,
       ParseMultipartForm r (Z.shiftl 32 20) = Some form /\
       FormFile form "file" = Some handler /\
       k = Os.key (Filepath.Join [resolve (uploadDir r form);
                                  Filename handler])).
Proof.
  assert (Hsame : fs (handleAPIUpload r w).2 = fs w ->
    (forall k n, fs w !! k = Some n ->
       exists n', fs (handleAPIUpload r w).2 !! k = Some n' /\
                  Os.isDir n' = Os.isDir n) /\
    (forall k t c, fs w !! k = Some (Os.File t c) ->
       fs (handleAPIUpload r w).2 !! k = Some (Os.File t c) \/
       exists form handler,
         ParseMultipartForm r (Z.shiftl 32 20) = Some form /\
         FormFile form "file" = Some handler /\
         k = Os.key (Filepath.Join [resolve (uploadDir r form);
                                    Filename handler]))).
  { intros ->. split; [intros k n H; exists n; auto|intros k t c H; auto]. }
  destruct (String.eqb_spec (Method r) MethodPost) as [Hm|Hm].
  2:{ apply Hsame. unfold handleAPIUpload.
      destruct (String.eqb_spec (Method r) MethodPost); [contradiction|].
      reflexivity. }
  destruct (ParseMultipartForm r (Z.shiftl 32 20)) as [form|] eqn:Hp.
  2:{ apply Hsame. unfold handleAPIUpload. rewrite Hm, Hp. reflexivity. }
  clear Hsame. rewrite (handleAPIUpload_steps r w form Hm Hp). cbv zeta.
  pose proof (MkdirAll_keeps (fs w) (now w) (resolve (uploadDir r form))) as K.
  destruct (Os.MkdirAll (fs w) (now w) (resolve (uploadDir r form)))
    as [fs1 err]. cbn [fst] in K.
  assert (Hk1 :
    (forall k n, fs w !! k = Some n ->
       exists n', fs1 !! k = Some n' /\ Os.isDir n' = Os.isDir n) /\
    (forall k t c, fs w !! k = Some (Os.File t c) ->
       fs1 !! k = Some (Os.File t c))).
  { split.
    - intros k n H. destruct (K k n H) as (n' & E & D & _). eauto.
    - intros k t c H. destruct (K k _ H) as (n' & E & _ & F).
      rewrite E, F; reflexivity. }
  destruct Hk1 as [Kn Kf].
  destruct err as [e|].
  { cbn [snd fs record]. split; [exact Kn|]. intros k t c H. left. eauto. }
  destruct (FormFile form "file") as [handler|] eqn:Hf.
  2:{ cbn [snd fs record]. split; [exact Kn|]. intros k t c H. left. eauto. }
  destruct (Os.Create fs1 (now w)
              (Filepath.Join [resolve (uploadDir r form); Filename handler]))
    as [e|fs2] eqn:Hc.
  { cbn [snd fs record]. split; [exact Kn|]. intros k t c H. left. eauto. }
  cbn [snd fs record]. split.
  - intros k n H. destruct (Kn k n H) as (n1 & E1 & D1).
    destruct (Create_Write_keeps _ _ _ _ (content handler) k n1 Hc E1)
      as (n' & E' & D' & _).
    exists n'. split; [exact E'|congruence].
  - intros k t c H. specialize (Kf k t c H).
    destruct (decide (k = Os.key (Filepath.Join
                [resolve (uploadDir r form); Filename handler]))) as [Ek|Nk].
    + right. exists form, handler. auto.
    + left. destruct (Create_Write_keeps _ _ _ _ (content handler) k _ Hc Kf)
        as (n' & E' & _ & F').
      rewrite E', F'; [reflexivity|reflexivity|exact Nk].
Qed.

(** X10. An upload whose path field is rooted and whose file name is a
  plain name stays inside StorageRoot: every file system call of the
  handler is on the upload directory or on a path below it. *)
Theorem rooted_upload_stays_inside r w form :
  Method r = MethodPost ->
  ParseMultipartForm r (Z.shiftl 32 20) = Some form ->
  Filepath.rooted (uploadDir r form) = true ->
  (forall handler, FormFile form "file" = Some handler ->
                   real (Filename handler) = true) ->
  exists l, calls (handleAPIUpload r w).2 = calls w ++ l /\
            Forall (fun c => within_root (Target c) = true) l.
Proof.
  intros Hm Hp Hr Hreal. rewrite (handleAPIUpload_steps r w form Hm Hp).
  cbv zeta.
  pose proof (clean_form_under_root _ (clean_elems_rooted _ Hr)) as Hcf.
  assert (Hdir : within_root (resolve (uploadDir r form)) = true).
  { rewrite (resolve_rooted _ Hr), within_root_render by exact Hcf.
    reflexivity. }
  destruct (Os.MkdirAll (fs w) (now w) (resolve (uploadDir r form)))
    as [fs1 [e|]].
  { eexists [_]. split; [reflexivity|]. constructor; [exact Hdir|constructor]. }
  destruct (FormFile form "file") as [handler|] eqn:Hf.
  2:{ eexists [_]. split; [reflexivity|].
      constructor; [exact Hdir|constructor]. }
  assert (Hfile : within_root (Filepath.Join [resolve (uploadDir r form);
                                              Filename handler]) = true).
  { rewrite (resolve_rooted _ Hr).
    rewrite (Join_render_real _ _ Hcf (Hreal _ eq_refl)).
    rewrite within_root_render; [reflexivity|].
    apply clean_form_snoc; [exact Hcf|exact (Hreal _ eq_refl)]. }
  destruct (Os.Create fs1 (now w)
              (Filepath.Join [resolve (uploadDir r form); Filename handler])).
  - eexists [_; _]. split; [cbn; rewrite <- app_assoc; reflexivity|].
    repeat constructor; assumption.
  - eexists [_; _; _].
    split; [cbn; rewrite <- !app_assoc; reflexivity|].
    repeat constructor; assumption.
Qed.

Lemma rooted_upload_stays_inside_witness :
  exists l,
    calls (handleAPIUpload
             (post "/api/upload"
                (Multipart [value "path" "/../../tmp"; file "file" "a.txt" "x"]))
             w0).2 = calls w0 ++ l /\
    Forall (fun c => within_root (Target c) = true) l.
Proof.
  apply (rooted_upload_stays_inside
           (post "/api/upload"
              (Multipart [value "path" "/../../tmp"; file "file" "a.txt" "x"]))
           w0
           {| Value := [("path", "/../../tmp")];
              File := [("file", {| Filename := "a.txt"; Size := 1;
                                   content := "x"; tmpfile := false |})] |});
    try reflexivity.
  intros handler H. inversion H. reflexivity.
Defined.

End HandlerEffects.

(** ** Reading a directory *)

Section Listing.
Import Os Effects.
Local Open Scope list_scope.

Implicit Types (fs : gmap (list string) node) (k dir : list string).

Lemma child_of_spec dir k name :
  child_of dir k = Some name <-> k = dir ++ [name].
Proof.
  unfold child_of. split.
  - destruct (rev k) as [|x rp] eqn:E; [discriminate|].
    destruct (decide (rev rp = dir)) as [<-|]; [|discriminate].
    intros H. inversion H; subst.
    rewrite <- (rev_involutive k), E. reflexivity.
  - intros ->. rewrite rev_app_distr. cbn [rev app].
    rewrite rev_involutive.
    destruct (decide (dir = dir)); [reflexivity|contradiction].
Qed.

(** The entries of a directory are its children, each under its name. *)
Lemma elem_of_entries fs dir e :
  e ∈ entries fs dir <->
  exists name n, fs !! (dir ++ [name]) = Some n /\ e = entryOf name n.
Proof.
  unfold entries. rewrite list_elem_of_omap. split.
  - intros ([k n] & Hin & H). cbn [fst snd] in H.
    destruct (child_of dir k) as [name|] eqn:Hc; [|discriminate].
    apply child_of_spec in Hc. subst k.
    apply elem_of_map_to_list in Hin.
    exists name, n. split; [exact Hin|]. inversion H. reflexivity.
  - intros (name & n & Hl & ->). exists (dir ++ [name], n). split.
    + apply elem_of_map_to_list, Hl.
    + cbn [fst snd].
      rewrite (proj2 (child_of_spec dir (dir ++ [name]) name) eq_refl).
      reflexivity.
Qed.

Lemma entries_names_aux dir (l : list (list string * node)) :
  NoDup (l.*1) ->
  NoDup (map Name
           (omap (fun kn : list string * node =>
                    match child_of dir kn.1 with
                    | Some name => Some (entryOf name kn.2)
                    | None => None
                    end) l)).
Proof.
  induction l as [|[k n] l IH]; intros Hnd; [constructor|].
  cbn [fmap list_fmap fst] in Hnd. apply NoDup_cons in Hnd.
  destruct Hnd as [Hk Hnd]. cbn [omap list_omap fst snd].
  destruct (child_of dir k) as [name|] eqn:Hc; [|apply IH, Hnd].
  cbn [map]. apply NoDup_cons. split; [|apply IH, Hnd].
  intros Hin. apply Hk. apply list_elem_of_In, in_map_iff in Hin.
  destruct Hin as (e & He & Hin). apply list_elem_of_In in Hin.
  apply list_elem_of_omap in Hin. destruct Hin as ([k' n'] & Hin' & H).
  cbn [fst snd] in H.
  destruct (child_of dir k') as [name'|] eqn:Hc'; [|discriminate].
  inversion H; subst. cbn [Name entryOf] in He. subst name'.
  apply child_of_spec in Hc. apply child_of_spec in Hc'. subst.
  apply list_elem_of_fmap. exists (dir ++ [name], n'). split; [reflexivity|].
  exact Hin'.
Qed.

(** No name is listed twice. *)
Lemma entries_names fs dir : NoDup (map Name (entries fs dir)).
Proof. apply entries_names_aux, NoDup_fst_map_to_list. Qed.

Lemma insert_by_name_perm x l : insert_by_name x l ≡ₚ x :: l.
Proof.
  induction l as [|y l IH]; cbn [insert_by_name]; [reflexivity|].
  destruct (String.leb (Name x) (Name y)); [reflexivity|].
  rewrite IH. apply Permutation_swap.
Qed.

(** Sorting reorders and nothing else. *)
Lemma sort_by_name_perm l : sort_by_name l ≡ₚ l.
Proof.
  induction l as [|x l IH]; [reflexivity|].
  cbn [sort_by_name foldr]. rewrite insert_by_name_perm.
  constructor. exact IH.
Qed.

Lemma insert_by_name_sorted x l :
  Sorted by_name l -> Sorted by_name (insert_by_name x l).
Proof.
  induction l as [|y l IH]; intros Hs; cbn [insert_by_name].
  - constructor; constructor.
  - destruct (String.leb (Name x) (Name y)) eqn:E.
    + constructor; [exact Hs|]. constructor. exact E.
    + inversion Hs as [|? ? Hl Hhd]; subst.
      constructor; [apply IH, Hl|].
      assert (Hyx : by_name y x).
      { destruct (String.leb_total (Name x) (Name y)) as [H|H];
          [congruence|exact H]. }
      destruct l as [|z l]; cbn [insert_by_name].
      * constructor. exact Hyx.
      * destruct (String.leb (Name x) (Name z)).
        -- constructor. exact Hyx.
        -- inversion Hhd; subst. constructor. assumption.
Qed.

(** The entries come in the order of their names. *)
Lemma sort_by_name_sorted l : Sorted by_name (sort_by_name l).
Proof.
  induction l as [|x l IH]; [constructor|].
  cbn [sort_by_name foldr]. apply insert_by_name_sorted, IH.
Qed.

End Listing.

(** ** Listing, uploading and downloading together *)

Section RoundTrips.
Import Http Server Confinement Samples Effects Script.
Local Open Scope list_scope.

(** The listing of a directory that is there. *)
Lemma listing_of_directory r w t :
  guard (resolve (listPath r)) = true ->
  Os.Stat (fs w) (resolve (listPath r)) = inr (Os.Dir t) ->
  (handleAPIFiles r w).1
  = ok (JSONFiles (listPath r)
          (map (toFile (listPath r))
               (Os.sort_by_name
                  (Os.entries (fs w) (Os.key (resolve (listPath r))))))).
Proof.
  intros G Hs. rewrite handleAPIFiles_guard, G. unfold Os.ReadDir.
  rewrite Hs. reflexivity.
Qed.

Lemma elem_of_listing dirPath fs dir f :
  f ∈ map (toFile dirPath) (Os.sort_by_name (Os.entries fs dir)) <->
  exists name n, fs !! (dir ++ [name]) = Some n /\ f = fileOf dirPath name n.
Proof.
  rewrite list_elem_of_In, in_map_iff. split.
  - intros (e & <- & Hin). apply list_elem_of_In in Hin.
    rewrite sort_by_name_perm in Hin. apply elem_of_entries in Hin.
    destruct Hin as (name & n & Hl & ->). exists name, n. split; [exact Hl|].
    reflexivity.
  - intros (name & n & Hl & ->). exists (entryOf name n). split; [reflexivity|].
    apply list_elem_of_In. rewrite sort_by_name_perm.
    apply elem_of_entries. exists name, n. auto.
Qed.

Lemma Sorted_toFile dirPath l :
  Sorted by_name l -> Sorted by_file_name (map (toFile dirPath) l).
Proof.
  induction 1 as [|x l Hl IH Hhd]; cbn [map]; constructor; [exact IH|].
  destruct Hhd; cbn [map]; constructor. assumption.
Qed.

(** X11. The listing of a directory that is there holds exactly the
  children of the directory: one record for each node directly below it,
  with its name, its logical path, its kind, its size and its time; no
  name comes twice, and the records come in the order of their names. *)
Theorem listing_shows_the_children r w t :
  guard (resolve (listPath r)) = true ->
  Os.Stat (fs w) (resolve (listPath r)) = inr (Os.Dir t) ->
  exists files,
    (handleAPIFiles r w).1 = ok (JSONFiles (listPath r) files) /\
    (forall f, f ∈ files <->
       exists name n,
         fs w !! (Os.key (resolve (listPath r)) ++ [name]) = Some n /\
         f = fileOf (listPath r) name n) /\
    NoDup (map Api.Name files) /\
    Sorted by_file_name files.
Proof.
  intros G Hs. eexists. split; [apply (listing_of_directory r w t G Hs)|].
  split; [intros f; apply elem_of_listing|]. split.
  - rewrite map_map. cbn [toFile Api.Name].
    change (map (fun x => Os.Name x)
                (Os.sort_by_name
                   (Os.entries (fs w) (Os.key (resolve (listPath r))))))
      with (Os.Name <$> Os.sort_by_name
                   (Os.entries (fs w) (Os.key (resolve (listPath r))))).
    rewrite sort_by_name_perm. apply entries_names.
  - apply Sorted_toFile, sort_by_name_sorted.
Qed.

Lemma listing_shows_the_children_witness :
  exists files,
    (handleAPIFiles (get "/api/files" [("path", "/docs")]) w0).1
    = ok (JSONFiles "/docs" files) /\
    fileOf "/docs" "a.txt" (Os.File 2 "0123456789") ∈ files.
Proof.
  destruct (listing_shows_the_children
              (get "/api/files" [("path", "/docs")]) w0 1 eq_refl eq_refl)
    as (files & H1 & H2 & _).
  exists files. split; [exact H1|].
  apply H2. exists "a.txt", (Os.File 2 "0123456789"). split; reflexivity.
Defined.




Lemma key_child es name :
  clean_form es -> real name = true ->
  Os.key (Filepath.Join [render es; name]) = es ++ [name].
Proof.
  intros H Hn. rewrite (Join_render_real _ _ H Hn).
  apply key_render, clean_form_snoc; assumption.
Qed.


Lemma stat_child_inv fs (dir : list string) name n :
  Os.stat fs (dir ++ [name]) = inr n ->
  (exists t, Os.stat fs dir = inr (Os.Dir t)) /\ fs !! (dir ++ [name]) = Some n.
Proof.
  rewrite stat_snoc. destruct (Os.stat fs dir) as [|[t|t c]]; try discriminate.
  cbn [Os.isDir]. destruct (fs !! (dir ++ [name])); [|discriminate].
  intros E. inversion E; subst. split; [eauto|reflexivity].
Qed.



(** X12. After a successful upload into a directory that passes the
  guard, the listing of that directory shows the uploaded file, under its
  file name, as a file, with the byte count of the upload as its size. *)
Theorem upload_then_listing r w form handler r' :
  Method r = MethodPost ->
  ParseMultipartForm r (Z.shiftl 32 20) = Some form ->
  FormFile form "file" = Some handler ->
  Status (handleAPIUpload r w).1 = StatusOK ->
  real (Filename handler) = true ->
  guard (resolve (uploadDir r form)) = true ->
  listPath r' = uploadDir r form ->
  exists files,
    (handleAPIFiles r' (handleAPIUpload r w).2).1
    = ok (JSONFiles (uploadDir r form) files) /\
    {| Api.Name := Filename handler;
       Api.Path := Filepath.Join [uploadDir r form; Filename handler];
       Api.IsDir := false;
       Api.Size := bytes (content handler);
       Api.UpdatedAt := now w |} ∈ files.
Proof.
  intros Hm Hp Hf Hok Hn G Hl.
  pose proof (uploaded_file_stat r w form handler Hm Hp Hf Hok) as Hs.
  destruct (resolve_form (uploadDir r form)) as (es & Hcf & Hres).
  unfold Os.Stat in Hs. rewrite Hres, (key_child _ _ Hcf Hn) in Hs.
  apply stat_child_inv in Hs. destruct Hs as [[t Hd] Hlook].
  assert (Hdir : Os.Stat (fs (handleAPIUpload r w).2) (resolve (listPath r'))
                 = inr (Os.Dir t)).
  { unfold Os.Stat. rewrite Hl, Hres, (key_render _ Hcf). exact Hd. }
  rewrite <- Hl in G. eexists. split.
  - rewrite (listing_of_directory r' _ t G Hdir), Hl. reflexivity.
  - apply elem_of_listing.
    exists (Filename handler), (Os.File (now w) (content handler)).
    split; [|reflexivity].
    rewrite Hres, (key_render _ Hcf). exact Hlook.
Qed.

Lemma upload_then_listing_witness :
  exists files,
    (handleAPIFiles (get "/api/files" [("path", "/fresh/dir")])
       (handleAPIUpload
          (post "/api/upload"
             (Multipart [value "path" "/fresh/dir"; file "file" "b.txt" "12345"]))
          w0).2).1
    = ok (JSONFiles "/fresh/dir" files) /\
    {| Api.Name := "b.txt"; Api.Path := "/fresh/dir/b.txt"; Api.IsDir := false;
       Api.Size := 5; Api.UpdatedAt := 100 |} ∈ files.
Proof.
  apply (upload_then_listing
           (post "/api/upload"
              (Multipart [value "path" "/fresh/dir"; file "file" "b.txt" "12345"]))
           w0
           {| Value := [("path", "/fresh/dir")];
              File := [("file", {| Filename := "b.txt"; Size := 5;
                                   content := "12345"; tmpfile := false |})] |}
           {| Filename := "b.txt"; Size := 5; content := "12345";
              tmpfile := false |}
           (get "/api/files" [("path", "/fresh/dir")])); reflexivity.
Defined.





Lemma within_root_rooted p :
  Filepath.rooted p = true -> within_root (resolve p) = true.
Proof.
  intros H. rewrite (resolve_rooted _ H).
  rewrite within_root_render; [reflexivity|].
  apply clean_form_under_root, clean_elems_rooted, H.
Qed.

Lemma real_nonempty_all reals :
  Forall (fun e => real e = true) reals ->
  Forall (fun e => negb (String.eqb e "") = true) reals.
Proof.
  intros H. eapply Forall_impl; [exact H|]. intros e He.
  destruct (real_inv _ He) as (-> & _). reflexivity.
Qed.

Lemma real_no_slash_all reals :
  Forall (fun e => real e = true) reals ->
  Forall (fun e => Strings.has_slash e = false) reals.
Proof.
  intros H. eapply Forall_impl; [exact H|]. intros e He.
  apply (real_inv _ He).
Qed.

(** X15. Going up from a directory that was entered through a listing
  leads back to the listed directory: for a rooted logical directory and
  a plain name, [navigateToParent] of the child's logical path is the
  cleaned path of the directory. *)
Theorem go_up_from_listed_child p name :
  Filepath.rooted p = true -> real name = true ->
  navigateToParent (Filepath.Join [p; name]) = Some (Filepath.Clean p).
Proof.
  intros Hr Hn.
  pose proof (clean_elems_rooted _ Hr) as Hreals.
  assert (Hall : Forall (fun e => real e = true)
                        (Filepath.clean_elems p ++ [name])).
  { apply Forall_app. split; [exact Hreals|]. constructor; [exact Hn|constructor]. }
  rewrite (Join_rooted_real _ _ Hr Hn), (Clean_rooted _ Hr).
  assert (Hsplit : Strings.Split (Strings.Join (Filepath.clean_elems p ++ [name]))
                   = Filepath.clean_elems p ++ [name]).
  { apply Split_Join; [|apply real_no_slash_all, Hall].
    destruct (Filepath.clean_elems p); discriminate. }
  unfold navigateToParent.
  assert (Hne : String.eqb ("/" +:+ Strings.Join (Filepath.clean_elems p ++ [name]))
                           "/" = false).
  { change (String.eqb ("/" +:+ Strings.Join (Filepath.clean_elems p ++ [name])) "/")
      with (String.eqb (Strings.Join (Filepath.clean_elems p ++ [name])) "").
    destruct (String.eqb_spec (Strings.Join (Filepath.clean_elems p ++ [name])) "")
      as [E|]; [|reflexivity].
    rewrite E in Hsplit. cbn [Strings.Split] in Hsplit.
    destruct (Filepath.clean_elems p) as [|x [|y l]]; inversion Hsplit; subst.
    discriminate. }
  rewrite Hne.
  change ("/" +:+ Strings.Join (Filepath.clean_elems p ++ [name]))
    with ("" +:+ String "/" (Strings.Join (Filepath.clean_elems p ++ [name]))).
  rewrite Split_app_slash, Hsplit. cbn [Strings.Split app List.filter].
  change (negb (String.eqb "" "")) with false. cbv iota.
  rewrite (filter_all _ _ (real_nonempty_all _ Hall)), removelast_last.
  destruct (Filepath.clean_elems p); reflexivity.
Qed.

Lemma go_up_from_listed_child_witness :
  navigateToParent (Filepath.Join ["/docs//sub/."; "a"]) = Some "/docs/sub".
Proof.
  apply (go_up_from_listed_child "/docs//sub/." "a"); reflexivity.
Defined.

(** X16. Going up never leaves StorageRoot: whatever the current path of
  the page is, the path that [navigateToParent] loads is rooted, so its
  full path addresses the upload directory or a node below it. *)
Theorem go_up_stays_inside currentPath parentPath :
  navigateToParent currentPath = Some parentPath ->
  Filepath.rooted parentPath = true /\ within_root (resolve parentPath) = true.
Proof.
  unfold navigateToParent.
  destruct (String.eqb currentPath "/"); [discriminate|].
  intros E. injection E as Hq.
  assert (Hr : Filepath.rooted parentPath = true).
  { rewrite <- Hq.
    destruct (removelast (List.filter (fun s => negb (String.eqb s ""))
                                      (Strings.Split currentPath)));
      reflexivity. }
  split; [exact Hr|apply within_root_rooted, Hr].
Qed.

Lemma go_up_stays_inside_witness :
  navigateToParent "../../etc/passwd" = Some "/../../etc" /\
  within_root (resolve "/../../etc") = true.
Proof.
  split; [reflexivity|].
  apply (go_up_stays_inside "../../etc/passwd" "/../../etc"). reflexivity.
Defined.

(** X17. What main does before it listens: making the upload directory
  destroys nothing; when it reports no error the upload directory is
  there as a directory; and when a regular file stands in its place it
  fails and changes nothing. *)
Theorem setup_makes_the_upload_directory w :
  keeps (fs w) (fs (setup w).2) /\
  ((setup w).1 = None ->
   exists t, Os.Stat (fs (setup w).2) uploadPath = inr (Os.Dir t)) /\
  (forall t c, Os.Stat (fs w) uploadPath = inr (Os.File t c) ->
     (setup w).1 = Some Os.ENOTDIR /\ fs (setup w).2 = fs w).
Proof.
  unfold setup, MkdirAll.
  pose proof (MkdirAll_keeps (fs w) (now w) uploadPath) as K.
  destruct (Os.MkdirAll (fs w) (now w) uploadPath) as [fs' err] eqn:H.
  cbn [fst snd fs record] in *. split; [exact K|]. split.
  - intros ->. apply (MkdirAll_ok _ _ _ _ H).
  - intros t c Hs. unfold Os.MkdirAll in H.
    rewrite mkdirAll_blocked in H.
    + inversion H; subst. split; reflexivity.
    + rewrite rev_involutive. exists (Os.key uploadPath), t, c.
      split; [exists []; rewrite app_nil_r; reflexivity|exact Hs].
Qed.

(** The full path of a mkdir request under a rooted parent, for a plain
  name: the name joined onto the full path of the parent. *)
Lemma resolve_in_rooted p name :
  Filepath.rooted p = true -> real name = true ->
  resolve_in p name = Filepath.Join [resolve p; name].
Proof.
  intros Hr Hn.
  pose proof (clean_elems_rooted _ Hr) as Hreals.
  rewrite (resolve_rooted _ Hr).
  rewrite (Join_render_real _ _ (clean_form_under_root _ Hreals) Hn).
  rewrite resolve_in_eq, (Clean_rooted _ Hr), Clean_under_root_elems.
  change (("/" +:+ Strings.Join (Filepath.clean_elems p)) +:+ String "/" name)
    with (("" +:+ String "/" (Strings.Join (Filepath.clean_elems p)))
          +:+ String "/" name).
  destruct (real_inv _ Hn) as (_ & _ & _ & E4).
  rewrite !Split_app_slash, (Split_slash_free _ E4).
  rewrite clean_loop_snoc by exact Hn.
  change (Filepath.clean_loop false
            (Strings.Split "" ++ Strings.Split (Strings.Join (Filepath.clean_elems p)))
            ["uploads"] 0)
    with (Filepath.clean_loop false
            (Strings.Split (Strings.Join (Filepath.clean_elems p)))
            ["uploads"] 0).
  rewrite clean_loop_Join_reals by exact Hreals.
  cbn [rev]. rewrite rev_app_distr, rev_involutive. reflexivity.
Qed.

(** The guard that lets a child through lets its directory through. *)
Lemma guard_parent es name :
  clean_form es -> real name = true ->
  guard (render (es ++ [name])) = true -> es <> [] ->
  guard (render es) = true.
Proof.
  intros H Hn. rewrite !guard_render by (try apply clean_form_snoc; assumption).
  destruct es as [|e [|t rest]]; [congruence| |]; cbn [app]; intros G _.
  - apply andb_prop in G. apply G.
  - exact G.
Qed.

(** X18. After a successful mkdir of a plain name under a rooted parent
  path, the listing of the parent shows the new directory, as a
  directory, under that name. *)
Theorem mkdir_then_listing r w reqPath reqName r' :
  Body r = JSONObject reqPath reqName ->
  Status (handleAPIMkdir r w).1 = StatusOK ->
  Filepath.rooted reqPath = true ->
  real reqName = true ->
  listPath r' = reqPath ->
  exists files t,
    (handleAPIFiles r' (handleAPIMkdir r w).2).1
    = ok (JSONFiles reqPath files) /\
    fileOf reqPath reqName (Os.Dir t) ∈ files.
Proof.
  intros Hb Hok Hr Hn Hl.
  destruct (made_directory_stat r w reqPath reqName Hb Hok)
    as [(G & _ & _) [t Hs]].
  pose proof (clean_form_under_root _ (clean_elems_rooted _ Hr)) as Hcf.
  rewrite (resolve_in_rooted _ _ Hr Hn) in G, Hs.
  unfold Os.Stat in Hs. rewrite (resolve_rooted _ Hr) in G, Hs.
  rewrite (key_child _ _ Hcf Hn) in Hs.
  rewrite (Join_render_real _ _ Hcf Hn) in G.
  apply (guard_parent _ _ Hcf Hn) in G; [|discriminate].
  apply stat_child_inv in Hs. destruct Hs as [[t0 Hd] Hlook].
  assert (Hdir : Os.Stat (fs (handleAPIMkdir r w).2) (resolve (listPath r'))
                 = inr (Os.Dir t0)).
  { unfold Os.Stat. rewrite Hl, (resolve_rooted _ Hr), (key_render _ Hcf).
    exact Hd. }
  assert (G' : guard (resolve (listPath r')) = true).
  { rewrite Hl, (resolve_rooted _ Hr). exact G. }
  eexists. exists t. split.
  - rewrite (listing_of_directory r' _ t0 G' Hdir), Hl. reflexivity.
  - apply elem_of_listing. exists reqName, (Os.Dir t). split; [|reflexivity].
    rewrite (resolve_rooted _ Hr), (key_render _ Hcf). exact Hlook.
Qed.

Lemma mkdir_then_listing_witness :
  exists files t,
    (handleAPIFiles (get "/api/files" [("path", "/docs")])
       (handleAPIMkdir (post "/api/mkdir" (JSONObject "/docs" "sub")) w0).2).1
    = ok (JSONFiles "/docs" files) /\
    fileOf "/docs" "sub" (Os.Dir t) ∈ files.
Proof.
  apply (mkdir_then_listing
           (post "/api/mkdir" (JSONObject "/docs" "sub")) w0 "/docs" "sub"
           (get "/api/files" [("path", "/docs")])); reflexivity.
Defined.

(** X19. When a regular file stands at the directory an upload names, or
  above it, the handler answers 500 "Failed to create directory", writes
  nothing and leaves the file system as it was. *)
Theorem upload_blocked_by_a_file r w form :
  Method r = MethodPost ->
  ParseMultipartForm r (Z.shiftl 32 20) = Some form ->
  file_in_the_way (fs w) (Os.key (resolve (uploadDir r form))) ->
  (handleAPIUpload r w).1
  = sendJSONError "Failed to create directory" StatusInternalServerError /\
  fs (handleAPIUpload r w).2 = fs w.
Proof.
  intros Hm Hp Hf. rewrite (handleAPIUpload_steps r w form Hm Hp). cbv zeta.
  unfold Os.MkdirAll. rewrite mkdirAll_blocked.
  - split; reflexivity.
  - rewrite rev_involutive. exact Hf.
Qed.

Lemma upload_blocked_by_a_file_witness :
  (handleAPIUpload
     (post "/api/upload"
        (Multipart [value "path" "/docs/a.txt"; file "file" "b.txt" "x"])) w0).1
  = sendJSONError "Failed to create directory" StatusInternalServerError /\
  fs (handleAPIUpload
        (post "/api/upload"
           (Multipart [value "path" "/docs/a.txt"; file "file" "b.txt" "x"]))
        w0).2 = fs w0.
Proof.
  apply (upload_blocked_by_a_file
           (post "/api/upload"
              (Multipart [value "path" "/docs/a.txt"; file "file" "b.txt" "x"]))
           w0
           {| Value := [("path", "/docs/a.txt")];
              File := [("file", {| Filename := "b.txt"; Size := 1;
                                   content := "x"; tmpfile := false |})] |});
    try reflexivity.
  exists ["uploads"; "docs"; "a.txt"], 2%Z, "0123456789".
  split; [exists []; reflexivity|reflexivity].
Defined.

(** X20. An upload whose file name is the name of an existing directory
  fails: the handler answers 500 "Failed to create file on server", and
  the file system is as it was, the directory included. *)
Theorem upload_onto_a_directory r w form handler t :
  Method r = MethodPost ->
  ParseMultipartForm r (Z.shiftl 32 20) = Some form ->
  FormFile form "file" = Some handler ->
  real (Filename handler) = true ->
  Os.Stat (fs w) (Filepath.Join [resolve (uploadDir r form); Filename handler])
  = inr (Os.Dir t) ->
  (handleAPIUpload r w).1
  = sendJSONError "Failed to create file on server" StatusInternalServerError /\
  fs (handleAPIUpload r w).2 = fs w.
Proof.
  intros Hm Hp Hf Hn Hs.
  rewrite (handleAPIUpload_steps r w form Hm Hp). cbv zeta.
  destruct (resolve_form (uploadDir r form)) as (es & Hcf & Hres).
  assert (Hk : Os.key (Filepath.Join [resolve (uploadDir r form);
                                      Filename handler])
               = es ++ [Filename handler]).
  { rewrite Hres. apply key_child; assumption. }
  unfold Os.Stat in Hs. rewrite Hk in Hs.
  destruct (stat_child_inv _ _ _ _ Hs) as [[t0 Hd] Hlook].
  unfold Os.MkdirAll. rewrite (mkdirAll_fast _ _ _ t0).
  2:{ rewrite rev_involutive, Hres, (key_render _ Hcf). exact Hd. }
  rewrite Hf. unfold Os.Create. rewrite Hk, removelast_last, Hd, Hlook.
  split; reflexivity.
Qed.

Lemma upload_onto_a_directory_witness :
  (handleAPIUpload
     (post "/api/upload" (Multipart [file "file" "docs" "x"])) w0).1
  = sendJSONError "Failed to create file on server" StatusInternalServerError /\
  fs (handleAPIUpload
        (post "/api/upload" (Multipart [file "file" "docs" "x"])) w0).2
  = fs w0.
Proof.
  apply (upload_onto_a_directory
           (post "/api/upload" (Multipart [file "file" "docs" "x"])) w0
           {| Value := [];
              File := [("file", {| Filename := "docs"; Size := 1;
                                   content := "x"; tmpfile := false |})] |}
           {| Filename := "docs"; Size := 1; content := "x"; tmpfile := false |}
           1); reflexivity.
Defined.

End RoundTrips.
